(** * The Braze backend of basket: transport client and adapter

    A shallow embedding of [basket/news/backends/braze.py]:
    - [BrazeInterface], the transport client ([_request] and one
      operation per vendor endpoint), as computations over the log of
      HTTP calls issued so far;
    - [Braze], the adapter ([get], [add], [delete]) and its two mapping
      functions [from_vendor] and [to_vendor].

    Python values are the JSON-shaped values the module handles.  A
    [dict] is an association list in insertion order, as Python keeps
    it: [to_vendor] iterates over [update_data["newsletters"].items()]
    and the order of the subscription groups it emits is that order. *)

From Stdlib Require Import String Ascii List ZArith Bool Lia.
Import ListNotations.
Open Scope string_scope.
Open Scope Z_scope.
Set Warnings "-register-all".

(** ** Python values *)

Inductive value : Type :=
| VNone
| VBool (b : bool)
| VInt (z : Z)
| VStr (s : string)
| VList (l : list value)
| VDict (d : list (string * value)).

Definition dict : Type := list (string * value).

(** Truth value of an object: [None], [False], [0], the empty string,
    list and dict are false. *)
Definition truthy (v : value) : bool :=
  match v with
  | VNone => false
  | VBool b => b
  | VInt z => negb (z =? 0)
  | VStr s => negb (s =? "")%string
  | VList l => match l with [] => false | _ => true end
  | VDict d => match d with [] => false | _ => true end
  end.

(** ** Dictionaries *)

Fixpoint dict_find (k : string) (d : dict) : option value :=
  match d with
  | [] => None
  | (k', v) :: r => if (k =? k')%string then Some v else dict_find k r
  end.

(** [k in d] *)
Definition dict_has (k : string) (d : dict) : bool :=
  match dict_find k d with Some _ => true | None => false end.

(** [d.get(k, default)] *)
Definition dict_get_default (d : dict) (k : string) (default : value) : value :=
  match dict_find k d with Some v => v | None => default end.

(** [d.get(k)] *)
Definition dict_get (d : dict) (k : string) : value := dict_get_default d k VNone.

(** [d[k] = v]: an existing key keeps its place, a new key goes last. *)
Fixpoint dict_set (k : string) (v : value) (d : dict) : dict :=
  match d with
  | [] => [(k, v)]
  | (k', v') :: r =>
      if (k =? k')%string then (k', v) :: r else (k', v') :: dict_set k v r
  end.

(** [a | b]: a copy of [a] updated with the items of [b] in their order. *)
Definition dict_merge (a b : dict) : dict :=
  fold_left (fun acc kv => dict_set (fst kv) (snd kv) acc) b a.

(** The dict left by [d.pop(k, default)]. *)
Fixpoint dict_remove (k : string) (d : dict) : dict :=
  match d with
  | [] => []
  | (k', v) :: r => if (k =? k')%string then r else (k', v) :: dict_remove k r
  end.

(** [x or {}] for an argument that is [None] or a dict. *)
Definition or_empty (x : option dict) : dict :=
  match x with Some d => d | None => [] end.

(** ** Equality of values, Python's [==]

    Lists compare element by element; dicts compare as mappings, whatever
    the insertion order; [True == 1] and [False == 0]. *)
Fixpoint py_eq (a b : value) {struct a} : bool :=
  match a, b with
  | VNone, VNone => true
  | VBool x, VBool y => Bool.eqb x y
  | VBool x, VInt y => (if x then 1 else 0) =? y
  | VInt x, VBool y => x =? (if y then 1 else 0)
  | VInt x, VInt y => x =? y
  | VStr x, VStr y => (x =? y)%string
  | VList l1, VList l2 =>
      (fix go (l1 l2 : list value) {struct l1} : bool :=
         match l1, l2 with
         | [], [] => true
         | x :: xs, y :: ys => py_eq x y && go xs ys
         | _, _ => false
         end) l1 l2
  | VDict d1, VDict d2 =>
      (length d1 =? length d2)%nat &&
      (fix go (d1 : dict) {struct d1} : bool :=
         match d1 with
         | [] => true
         | (k, v) :: r =>
             match dict_find k d2 with
             | Some v' => py_eq v v'
             | None => false
             end && go r
         end) d1
  | _, _ => false
  end.

(** [a != b] *)
Definition py_ne (a b : value) : bool := negb (py_eq a b).

(** ** Exceptions and results *)

Inductive exn : Type :=
| BrazeBadRequestError (message : string)
| BrazeUnauthorizedError (message : string)
| BrazeForbiddenError (message : string)
| BrazeNotFoundError (message : string)
| BrazeRateLimitError (message : string)
| BrazeInternalServerError (message : string)
| BrazeUserNotFoundByEmailError
| BrazeClientError (message : string)
| ValueError (message : string)
| AttributeError
| KeyError (key : string)
| IndexError
| TypeError
| NotImplementedError
| JSONDecodeError
| RequestException.

Inductive result (A : Type) : Type :=
| Ok (a : A)
| Raise (e : exn).
Arguments Ok {A} a.
Arguments Raise {A} e.

Definition rbind {A B : Type} (r : result A) (k : A -> result B) : result B :=
  match r with
  | Ok a => k a
  | Raise e => Raise e
  end.

Declare Scope result_scope.
Delimit Scope result_scope with result.
Notation "'let?' x ':=' r 'in' k" := (rbind r (fun x => k))
  (at level 10, x name, r at level 100, k at level 200) : result_scope.
Open Scope result_scope.

(** ** Methods and subscripts on values that may be of any shape *)

(** [v.get(k, default)]: only a dict has the method. *)
Definition py_get_default (v : value) (k : string) (default : value) : result value :=
  match v with
  | VDict d => Ok (dict_get_default d k default)
  | _ => Raise AttributeError
  end.

(** [v.get(k)] *)
Definition py_get (v : value) (k : string) : result value := py_get_default v k VNone.

(** [d[k]] on a dict. *)
Definition dict_index (d : dict) (k : string) : result value :=
  match dict_find k d with
  | Some v => Ok v
  | None => Raise (KeyError k)
  end.

(** [v[k]] for a string key [k]: a dict looks the key up, anything else
    refuses a string subscript. *)
Definition py_index (v : value) (k : string) : result value :=
  match v with
  | VDict d => dict_index d k
  | _ => Raise TypeError
  end.

(** [v[0]]: the keys of the dicts here are strings, so [0] is never one. *)
Definition py_index0 (v : value) : result value :=
  match v with
  | VList [] => Raise IndexError
  | VList (x :: _) => Ok x
  | VStr EmptyString => Raise IndexError
  | VStr (String c _) => Ok (VStr (String c EmptyString))
  | VDict _ => Raise (KeyError "0")
  | _ => Raise TypeError
  end.

Fixpoint chars (s : string) : list value :=
  match s with
  | EmptyString => []
  | String c r => VStr (String c EmptyString) :: chars r
  end.

(** The items a [for] loop over [v] visits. *)
Definition py_iter (v : value) : result (list value) :=
  match v with
  | VList l => Ok l
  | VDict d => Ok (map (fun kv => VStr (fst kv)) d)
  | VStr s => Ok (chars s)
  | _ => Raise TypeError
  end.


(** ** The HTTP world

    [urllib.parse] and [requests] are libraries outside the repository.
    Of a parsed URL the client reads the scheme and the network
    location; a request either fails in transport or comes back with a
    status code, the body text and, when the text is JSON, its value. *)

Inductive BrazeEndpoint : Type :=
| CAMPAIGNS_TRIGGER_SEND
| USERS_EXPORT_IDS
| USERS_TRACK
| USERS_DELETE
| SUBSCRIPTION_USER_STATUS.

Definition endpoint_value (endpoint : BrazeEndpoint) : string :=
  match endpoint with
  | CAMPAIGNS_TRIGGER_SEND => "/campaigns/trigger/send"
  | USERS_EXPORT_IDS => "/users/export/ids"
  | USERS_TRACK => "/users/track"
  | USERS_DELETE => "/users/delete"
  | SUBSCRIPTION_USER_STATUS => "/subscription/user/status"
  end.

Record ParseResult : Type := { scheme : string; netloc : string }.

(** One call of [requests.get] or [requests.post]: [call_data] is the
    value whose [json.dumps] text is sent as the body. *)
Record http_call : Type := {
  call_method : string;
  call_endpoint : BrazeEndpoint;
  call_url : string;
  call_headers : list (string * string);
  call_params : value;
  call_data : value
}.

Inductive http_outcome : Type :=
| Response (status_code : Z) (text : string) (json : option value)
| TransportFailure.

(** [response.raise_for_status()] of [requests] raises [HTTPError] for
    the client and server error statuses, 400 to 599, and for no other. *)
Definition raise_for_status (status_code : Z) : bool :=
  (400 <=? status_code) && (status_code <? 600).

Record BrazeInterface : Type := {
  api_url : string;
  api_key : option string;
  active : bool
}.

Record Braze : Type := { interface : BrazeInterface }.

(** [bool(api_key)] for a key that is [None] or a string. *)
Definition key_configured (api_key : option string) : bool :=
  match api_key with
  | Some k => negb (k =? "")%string
  | None => false
  end.

(** [f"Bearer {api_key}"] *)
Definition bearer (api_key : option string) : string :=
  "Bearer " ++ match api_key with Some k => k | None => "None" end.

(** [urlunparse((scheme, netloc, "", "", "", ""))] where both parts are
    non-empty, the only place the client calls it. *)
Definition urlunparse_root (scheme netloc : string) : string :=
  scheme ++ "://" ++ netloc.

(** Computations that issue HTTP calls: the state is the log of the
    calls issued so far, oldest first. *)
Definition M (A : Type) : Type := list http_call -> result A * list http_call.

Definition ret {A : Type} (a : A) : M A := fun log => (Ok a, log).

Definition raise {A : Type} (e : exn) : M A := fun log => (Raise e, log).

Definition bind {A B : Type} (m : M A) (k : A -> M B) : M B :=
  fun log =>
    match m log with
    | (Ok a, log') => k a log'
    | (Raise e, log') => (Raise e, log')
    end.

Definition lift {A : Type} (r : result A) : M A := fun log => (r, log).

Declare Scope http_scope.
Delimit Scope http_scope with http.
Notation "x <- m ;; k" := (bind m (fun x => k))
  (at level 61, m at next level, right associativity) : http_scope.
Open Scope http_scope.

(** ** Reference collaborators

    Stand-ins for the collaborators and libraries, used where a function
    is run on a concrete input. *)

Definition lower_ascii (c : ascii) : ascii :=
  let n := nat_of_ascii c in
  if ((65 <=? n) && (n <=? 90))%nat then ascii_of_nat (n + 32) else c.

Fixpoint lower (s : string) : string :=
  match s with
  | EmptyString => EmptyString
  | String c r => String (lower_ascii c) (lower r)
  end.

(** Modelled from the spec: [process_country] of the locale helpers,
    which normalizes a country to its lower-cased ISO code; a missing
    country stays missing. *)
Definition process_country_model (raw : value) : value :=
  match raw with
  | VStr s => if (s =? "")%string then VNone else VStr (lower s)
  | _ => VNone
  end.

(** Modelled from the spec: [process_lang] of the locale helpers, which
    normalizes a language code; the codes used here are normal already,
    and a missing language becomes the default ["en"]. *)
Definition process_lang_model (raw : value) : value :=
  match raw with
  | VStr s => if (s =? "")%string then VStr "en" else VStr s
  | _ => VStr "en"
  end.

(** Modelled from the spec: the newsletter registry, a one-to-one table
    between local slugs and vendor ids; the two rows are those of the
    test suite. *)
Definition newsletters_model : list (string * string) :=
  [ ("foo-news", "234c9b4a-1785-4cd5-b839-5dbc134982eb");
    ("bar-news", "78fe6671-9f94-48bd-aaf3-7e873536c3e6") ].

Definition slug_to_vendor_id_model (slug : string) : value :=
  match find (fun row => (fst row =? slug)%string) newsletters_model with
  | Some row => VStr (snd row)
  | None => VNone
  end.

Definition vendor_id_to_slug_model (vendor_id : value) : value :=
  match vendor_id with
  | VStr id =>
      match find (fun row => (snd row =? id)%string) newsletters_model with
      | Some row => VStr (fst row)
      | None => VNone
      end
  | _ => VNone
  end.

Definition is_hex (c : ascii) : bool :=
  let n := nat_of_ascii c in
  (((48 <=? n) && (n <=? 57)) || ((65 <=? n) && (n <=? 70)) || ((97 <=? n) && (n <=? 102)))%nat.

Fixpoint uuid_shape (i : nat) (s : string) : bool :=
  match s with
  | EmptyString => (i =? 36)%nat
  | String c r =>
      (if ((i =? 8) || (i =? 13) || (i =? 18) || (i =? 23))%nat
       then Ascii.eqb c "-" else is_hex c)
      && uuid_shape (S i) r
  end.

(** Modelled from the spec: the UUID-validity check, here the canonical
    8-4-4-4-12 hexadecimal form. *)
Definition is_valid_uuid_model (vendor_id : value) : bool :=
  match vendor_id with
  | VStr s => uuid_shape 0 s
  | _ => false
  end.

(** *** URLs

    What [urllib.parse.urlparse] reads off a URL, as far as the
    constructor looks at it: the scheme, the network location, and the
    host name that the result's [hostname] property takes out of the
    network location.  The functions follow [urlsplit] of Python 3.11.4
    and later on text of ASCII characters, the check of a bracketed host
    by [ipaddress] included; text outside ASCII, which the library also
    screens under NFKC normalization, is not covered. *)

Definition is_alpha (c : ascii) : bool :=
  let n := nat_of_ascii c in
  (((65 <=? n) && (n <=? 90)) || ((97 <=? n) && (n <=? 122)))%nat.

Definition is_digit (c : ascii) : bool :=
  let n := nat_of_ascii c in ((48 <=? n) && (n <=? 57))%nat.

(** [c in scheme_chars] *)
Definition is_scheme_char (c : ascii) : bool :=
  let n := nat_of_ascii c in
  (is_alpha c || is_digit c || (n =? 43) || (n =? 45) || (n =? 46))%nat.

Fixpoint forall_chars (p : ascii -> bool) (s : string) : bool :=
  match s with
  | EmptyString => true
  | String c r => p c && forall_chars p r
  end.

(** [c in s] *)
Fixpoint contains (c : ascii) (s : string) : bool :=
  match s with
  | EmptyString => false
  | String a r => Ascii.eqb a c || contains c r
  end.

(** [s.partition(c)]: the text before the first [c], whether there is
    one, and the text after it. *)
Fixpoint partition (c : ascii) (s : string) : string * bool * string :=
  match s with
  | EmptyString => (EmptyString, false, EmptyString)
  | String a r =>
      if Ascii.eqb a c then (EmptyString, true, r)
      else let '(before, found, after) := partition c r in (String a before, found, after)
  end.

(** [s.rpartition(c)[2]]: the text after the last [c], all of [s] when
    it has none. *)
Fixpoint after_last (c : ascii) (s : string) : string :=
  match s with
  | EmptyString => EmptyString
  | String a r =>
      if contains c r then after_last c r
      else if Ascii.eqb a c then r else s
  end.

(** [s.split(c)] *)
Fixpoint split (c : ascii) (s : string) : list string :=
  match s with
  | EmptyString => [EmptyString]
  | String a r =>
      if Ascii.eqb a c then EmptyString :: split c r
      else match split c r with
           | first :: rest => String a first :: rest
           | [] => [String a EmptyString]
           end
  end.

(** [url.lstrip(_WHATWG_C0_CONTROL_OR_SPACE)]: the leading characters up
    to the space, code 32, are dropped. *)
Fixpoint lstrip_c0_control_or_space (url : string) : string :=
  match url with
  | EmptyString => EmptyString
  | String c r => if (nat_of_ascii c <=? 32)%nat then lstrip_c0_control_or_space r else url
  end.

(** The loop over [_UNSAFE_URL_BYTES_TO_REMOVE]: tab, carriage return
    and line feed are taken out wherever they stand. *)
Fixpoint remove_unsafe_bytes (url : string) : string :=
  match url with
  | EmptyString => EmptyString
  | String c r =>
      let n := nat_of_ascii c in
      if ((n =? 9) || (n =? 10) || (n =? 13))%nat then remove_unsafe_bytes r
      else String c (remove_unsafe_bytes r)
  end.

(** [_splitnetloc(url, 2)[0]] on the text after the double slash: up to
    the first of [/], [?] and [#]. *)
Fixpoint until_delimiter (s : string) : string :=
  match s with
  | EmptyString => EmptyString
  | String c r =>
      if (Ascii.eqb c "/" || Ascii.eqb c "?" || Ascii.eqb c "#")%bool then EmptyString
      else String c (until_delimiter r)
  end.

(** A printable ASCII character that does not end the network location
    and is no bracket. *)
Definition is_host_char (c : ascii) : bool :=
  let n := nat_of_ascii c in
  ((32 <=? n) && (n <? 127))%nat
  && negb (Ascii.eqb c "/" || Ascii.eqb c "?" || Ascii.eqb c "#"
           || Ascii.eqb c "[" || Ascii.eqb c "]").

(** [int(s, 10)] of a string of digits. *)
Definition decimal (s : string) : nat :=
  fold_left (fun n c => (10 * n + (nat_of_ascii c - 48))%nat) (list_ascii_of_string s) 0%nat.

(** [IPv4Address._parse_octet] succeeds: one to three digits, with no
    leading zero, that make a number up to 255. *)
Definition is_octet (octet_str : string) : bool :=
  if (octet_str =? "")%string then false
  else if negb (forall_chars is_digit octet_str) then false
  else if (3 <? String.length octet_str)%nat then false
  else if negb (octet_str =? "0")%string
          && match octet_str with String c _ => Ascii.eqb c "0" | EmptyString => false end
       then false
  else (decimal octet_str <=? 255)%nat.

(** [IPv4Address(address)] succeeds. *)
Definition is_ipv4_address (address : string) : bool :=
  negb (contains "/" address)
  && negb (address =? "")%string
  && (List.length (split "." address) =? 4)%nat
  && forallb is_octet (split "." address).

(** [IPv6Address._parse_hextet] succeeds: one to four hexadecimal
    digits ([int] refuses the empty string). *)
Definition is_hextet (hextet_str : string) : bool :=
  forall_chars is_hex hextet_str
  && (1 <=? String.length hextet_str)%nat && (String.length hextet_str <=? 4)%nat.

(** The indices from [i] on at which a part is empty. *)
Fixpoint empty_parts (i : nat) (parts : list string) : list nat :=
  match parts with
  | [] => []
  | part :: rest =>
      ((if (part =? "")%string then [i] else []) ++ empty_parts (S i) rest)%list
  end.

(** [IPv6Address._ip_int_from_string] succeeds.  An IPv4 suffix stands
    for two hextets, which are valid whatever its octets and are written
    ["0"] here. *)
Definition is_ipv6_int (ip_str : string) : bool :=
  let parts := split ":" ip_str in
  let suffix := List.last parts "" in
  let parts := if contains "." suffix then (removelast parts ++ ["0"; "0"])%list else parts in
  let count := List.length parts in
  negb (ip_str =? "")%string
  && (3 <=? List.length (split ":" ip_str))%nat
  && (negb (contains "." suffix) || is_ipv4_address suffix)
  && (count <=? 9)%nat
  && match empty_parts 1 (removelast (tl parts)) with
     | [] => (count =? 8)%nat && forallb is_hextet parts
     | [skip_index] =>
         let leading := (hd "" parts =? "")%string in
         let trailing := (List.last parts "" =? "")%string in
         let parts_hi := skip_index in
         let parts_lo := (count - skip_index - 1)%nat in
         (negb leading || (parts_hi =? 1)%nat)
         && (negb trailing || (parts_lo =? 1)%nat)
         && let parts_hi := if leading then (parts_hi - 1)%nat else parts_hi in
            let parts_lo := if trailing then (parts_lo - 1)%nat else parts_lo in
            (parts_hi + parts_lo <=? 7)%nat
            && forallb is_hextet (firstn parts_hi parts)
            && forallb is_hextet (skipn (count - parts_lo) parts)
     | _ => false
     end.

(** [IPv6Address(address)] succeeds: a scope id after [%] is not empty
    and holds no further [%]. *)
Definition is_ipv6_address (address : string) : bool :=
  let '(addr, sep, scope_id) := partition "%" address in
  negb (contains "/" address)
  && negb (sep && ((scope_id =? "")%string || contains "%" scope_id))
  && is_ipv6_int addr.

Definition hex_digit (n : nat) : ascii :=
  ascii_of_nat (if (n <? 10)%nat then (n + 48)%nat else (n + 87)%nat).

Definition double_quote : ascii := ascii_of_nat 34.

Fixpoint repr_chars (quote : ascii) (s : string) : string :=
  match s with
  | EmptyString => EmptyString
  | String c r =>
      let n := nat_of_ascii c in
      (if Ascii.eqb c quote || Ascii.eqb c "\" then String "\" (String c EmptyString)
       else if (n =? 9)%nat then "\t"
       else if (n =? 10)%nat then "\n"
       else if (n =? 13)%nat then "\r"
       else if ((n <? 32) || (n =? 127))%nat
            then String "\" (String "x" (String (hex_digit (n / 16)%nat)
                   (String (hex_digit (n mod 16)%nat) EmptyString)))
       else String c EmptyString)
      ++ repr_chars quote r
  end.

(** [repr(s)] of a string: in single quotes, unless it holds a single
    quote and no double one. *)
Definition repr (s : string) : string :=
  let quote := if contains "'" s && negb (contains double_quote s) then double_quote else "'"%char in
  String quote (repr_chars quote s ++ String quote EmptyString).

Fixpoint drop_hex (s : string) : string :=
  match s with
  | EmptyString => EmptyString
  | String c r => if is_hex c then drop_hex r else s
  end.

(** [re.match(r"\Av[a-fA-F0-9]+\..+\Z", hostname)] for a [hostname]
    that starts with [v]; the dot of the pattern matches no line feed. *)
Definition is_ipvfuture (hostname : string) : bool :=
  match hostname with
  | String _ (String c r) =>
      is_hex c
      && match drop_hex r with
         | String d rest =>
             Ascii.eqb d "." && negb (rest =? "")%string && negb (contains (ascii_of_nat 10) rest)
         | EmptyString => false
         end
  | _ => false
  end.

(** [_check_bracketed_host] *)
Definition check_bracketed_host (hostname : string) : result unit :=
  if match hostname with String c _ => Ascii.eqb c "v" | EmptyString => false end then
    if is_ipvfuture hostname then Ok tt
    else Raise (ValueError "IPvFuture address is invalid")
  else if is_ipv4_address hostname then
    Raise (ValueError "An IPv4 address cannot be in brackets")
  else if is_ipv6_address hostname then Ok tt
  else Raise (ValueError (repr hostname ++ " does not appear to be an IPv4 or IPv6 address")).

(** [_check_bracketed_netloc] *)
Definition check_bracketed_netloc (netloc : string) : result unit :=
  let hostname_and_port := after_last "@" netloc in
  let '(before_bracket, have_open_br, bracketed) := partition "[" hostname_and_port in
  if have_open_br then
    if negb (before_bracket =? "")%string then Raise (ValueError "Invalid IPv6 URL")
    else
      let '(hostname, _, port) := partition "]" bracketed in
      match port with
      | String c _ =>
          if Ascii.eqb c ":" then check_bracketed_host hostname
          else Raise (ValueError "Invalid IPv6 URL")
      | EmptyString => check_bracketed_host hostname
      end
  else
    let '(hostname, _, _) := partition ":" hostname_and_port in
    check_bracketed_host hostname.

(** The scheme that [urlsplit] reads off the stripped URL, and the text
    after it: a scheme is a letter followed by scheme characters, up to
    the first colon, and is lower-cased. *)
Definition split_scheme (url : string) : string * string :=
  match partition ":" url with
  | (String c pre, true, post) =>
      if is_alpha c && forall_chars is_scheme_char pre
      then (lower (String c pre), post) else (EmptyString, url)
  | _ => (EmptyString, url)
  end.

(** The network location that follows a double slash. *)
Definition split_netloc (url : string) : string :=
  match url with
  | String a (String b r) =>
      if Ascii.eqb a "/" && Ascii.eqb b "/" then until_delimiter r else EmptyString
  | _ => EmptyString
  end.

(** [urlparse(url)], its scheme and network location.  The library
    raises [ValueError] for a network location with one bracket but not
    the other, and for one whose bracketed host is no IP literal. *)
Definition urlparse_model (url : string) : result ParseResult :=
  let url := remove_unsafe_bytes (lstrip_c0_control_or_space url) in
  let '(scheme, url) := split_scheme url in
  let netloc := split_netloc url in
  let? _ :=
    if xorb (contains "[" netloc) (contains "]" netloc) then Raise (ValueError "Invalid IPv6 URL")
    else if contains "[" netloc then check_bracketed_netloc netloc
    else Ok tt in
  Ok {| scheme := scheme; netloc := netloc |}.

(** The [hostname] property of a parse result: the part of the network
    location after the user information and before the port, without the
    brackets of an IP literal, in lower case but for an IPv6 zone;
    [None] when that part is empty. *)
Definition hostname (urlbits : ParseResult) : option string :=
  let hostinfo := after_last "@" (netloc urlbits) in
  let '(_, have_open_br, bracketed) := partition "[" hostinfo in
  let hostname :=
    if have_open_br then fst (fst (partition "]" bracketed))
    else fst (fst (partition ":" hostinfo)) in
  if (hostname =? "")%string then None
  else
    let '(hostname, percent, zone) := partition "%" hostname in
    Some (lower hostname ++ (if percent then "%" else "") ++ zone).

(** [urljoin] of a root URL and an absolute path, for the schemes
    [urllib] resolves paths under. *)
Definition urljoin_model (base url : string) : string := base ++ url.

(** A server that gives every request the same outcome. *)
Definition server_always (outcome : http_outcome) : list http_call -> http_call -> http_outcome :=
  fun _ _ => outcome.

(** A server scripted by endpoint: one outcome for the export of users,
    one for the subscription status, one for everything else. *)
Definition server_scripted (export status other : http_outcome)
  : list http_call -> http_call -> http_outcome :=
  fun _ call =>
    match call_endpoint call with
    | USERS_EXPORT_IDS => export
    | SUBSCRIPTION_USER_STATUS => status
    | _ => other
    end.

(** The records of the test suite. *)
Definition mock_braze_user_data : dict :=
  [ ("email", VStr "test@example.com");
    ("external_id", VStr "123");
    ("braze_id", VStr "456");
    ("first_name", VStr "Test");
    ("last_name", VStr "User");
    ("country", VStr "US");
    ("language", VStr "en");
    ("email_subscribe", VStr "opted_in");
    ("custom_attributes",
     VDict [ ("user_attributes_v1",
              VList [ VDict
                [ ("mailing_country", VStr "us");
                  ("email_lang", VStr "en");
                  ("created_at", VStr "2022-01-01");
                  ("updated_at", VStr "2022-02-01");
                  ("basket_token", VStr "abc");
                  ("fxa_first_service", VStr "test");
                  ("fxa_lang", VStr "en");
                  ("fxa_primary_email", VStr "test2@example.com");
                  ("fxa_created_at", VStr "2022-01-02");
                  ("has_fxa", VBool true) ] ]) ]) ].

Definition mock_braze_user_subscription_groups : list dict :=
  [ [ ("id", VStr "234c9b4a-1785-4cd5-b839-5dbc134982eb"); ("status", VStr "Subscribed") ];
    [ ("id", VStr "78fe6671-9f94-48bd-aaf3-7e873536c3e6"); ("status", VStr "Unsubscribed") ] ].

Definition mock_basket_user_data : dict :=
  [ ("email", VStr "test@example.com");
    ("email_id", VStr "123");
    ("id", VStr "456");
    ("first_name", VStr "Test");
    ("last_name", VStr "User");
    ("country", VStr "US");
    ("lang", VStr "en");
    ("newsletters", VList [VStr "foo-news"]);
    ("created_date", VStr "2022-01-01");
    ("last_modified_date", VStr "2022-02-01");
    ("optin", VBool true);
    ("optout", VBool false);
    ("token", VStr "abc");
    ("fxa_service", VStr "test");
    ("fxa_lang", VStr "en");
    ("fxa_primary_email", VStr "test2@example.com");
    ("fxa_create_date", VStr "2022-01-02") ].

(** The client of the test suite, [BrazeInterface("http://test.com",
    "test_api_key")], and a reading of the clock. *)
Definition braze_client : BrazeInterface :=
  {| api_url := "http://test.com"; api_key := Some "test_api_key"; active := true |}.

Definition frozen_now : string := "2024-05-01T12:00:00+00:00".

(** ** The backend *)

Section Backend.

(** Libraries.  [urlparse] raises [ValueError] on a URL it cannot take
    apart. *)
Variable urlparse : string -> result ParseResult.
Variable urljoin : string -> string -> string.
Variable server : list http_call -> http_call -> http_outcome.

(** Collaborators of the repository outside this module: the locale
    helpers ([basket.news.backends.ctms]), the newsletter registry
    ([basket.news.newsletters]) and the UUID check ([basket.base.utils]),
    taken as pure functions. *)
Variable process_country : value -> value.
Variable process_lang : value -> value.
Variable slug_to_vendor_id : string -> value.
Variable vendor_id_to_slug : value -> value.
Variable is_valid_uuid : value -> bool.

(** *** BrazeInterface *)

(** [BrazeInterface.__init__]: the client, and the warnings it emitted. *)
Definition BrazeInterface_init (base_url : string) (api_key : option string)
  : result (BrazeInterface * list string) :=
  let? urlbits := urlparse base_url in
  if (scheme urlbits =? "")%string || (netloc urlbits =? "")%string then
    Raise (ValueError "Invalid base_url")
  else
    Ok ({| api_url := urlunparse_root (scheme urlbits) (netloc urlbits);
           api_key := api_key;
           active := key_configured api_key |},
        if negb (key_configured api_key)
        then ["Braze API key is not configured"] else []).

(** The [except requests.exceptions.HTTPError] handler of [_request]. *)
Definition http_error (status_code : Z) (message : string) : exn :=
  if status_code =? 400 then BrazeBadRequestError message
  else if status_code =? 401 then BrazeUnauthorizedError message
  else if status_code =? 403 then BrazeForbiddenError message
  else if status_code =? 404 then BrazeNotFoundError message
  else if status_code =? 429 then BrazeRateLimitError message
  else if (status_code >=? 500) && (status_code <=? 599) then BrazeInternalServerError message
  else BrazeClientError message.

(** The call [_request] hands to [requests]: [params] go out with a GET
    only. *)
Definition request_call (self : BrazeInterface) (endpoint : BrazeEndpoint)
  (data : value) (method : string) (params : value) : http_call :=
  {| call_method := if (method =? "GET")%string then "GET" else "POST";
     call_endpoint := endpoint;
     call_url := urljoin (api_url self) (endpoint_value endpoint);
     call_headers := [ ("Authorization", bearer (api_key self));
                       ("Content-Type", "application/json") ];
     call_params := if (method =? "GET")%string then params else VNone;
     call_data := data |}.

(** [BrazeInterface._request].  The debug printing under
    [settings.DEBUG] writes to the standard output only and is left out. *)
Definition _request (self : BrazeInterface) (endpoint : BrazeEndpoint)
  (data : value) (method : string) (params : value) : M value :=
  fun log =>
    if negb (active self) then (Ok VNone, log)
    else
      let call := request_call self endpoint data method params in
      match server log call with
      | TransportFailure => (Raise RequestException, (log ++ [call])%list)
      | Response status_code text json =>
          if raise_for_status status_code then
            (Raise (http_error status_code text), (log ++ [call])%list)
          else
            match json with
            | Some body => (Ok body, (log ++ [call])%list)
            | None => (Raise JSONDecodeError, (log ++ [call])%list)
            end
      end.

Definition email_alias (email : value) : value :=
  VDict [("alias_name", email); ("alias_label", VStr "email")].

(** [user_data and user_data.pop(key, None)]: the value of the
    expression and the dict [user_data] is afterwards.  An empty
    [user_data] is itself the value. *)
Definition and_pop (user_data : option dict) (key : string) : value * option dict :=
  match user_data with
  | None => (VNone, None)
  | Some [] => (VDict [], Some [])
  | Some d => (dict_get d key, Some (dict_remove key d))
  end.

(** The attributes object [track_user] builds. *)
Definition track_user_attributes (email : value) (user_data : option dict) : dict :=
  let (email_id, user_data) := and_pop user_data "email_id" in
  let (basket_token, _) := and_pop user_data "basket_token" in
  if truthy email_id then
    [ ("email", email);
      ("external_id", email_id);
      ("basket_token", basket_token) ]
  else
    let attributes :=
      [ ("email", email);
        ("_update_existing_only", VBool false);
        ("user_alias", email_alias email) ] in
    if truthy basket_token then dict_set "basket_token" basket_token attributes
    else attributes.

(** The request body [track_user] builds. *)
Definition track_user_data (now : string) (email event : value) (user_data : option dict)
  : dict :=
  let email_id := fst (and_pop user_data "email_id") in
  let data := [("attributes", VList [VDict (track_user_attributes email user_data)])] in
  if truthy event then
    let events := [("name", event); ("time", VStr now)] in
    let events :=
      if truthy email_id then dict_set "external_id" email_id events
      else dict_set "user_alias" (email_alias email) events in
    dict_set "events" (VList [VDict events]) data
  else data.

Definition track_user (self : BrazeInterface) (now : string) (email event : value)
  (user_data : option dict) : M value :=
  _request self USERS_TRACK (VDict (track_user_data now email event user_data)) "POST" VNone.

Definition export_users_data (email fields_to_export external_id : value) : dict :=
  let data :=
    [ ("user_aliases", VList [email_alias email]);
      ("email_address", email) ] in
  let data :=
    if truthy external_id then dict_set "external_ids" (VList [external_id]) data else data in
  if truthy fields_to_export then dict_set "fields_to_export" fields_to_export data else data.

Definition export_users (self : BrazeInterface) (email fields_to_export external_id : value)
  : M value :=
  _request self USERS_EXPORT_IDS
    (VDict (export_users_data email fields_to_export external_id)) "POST" VNone.

Definition delete_user_data (email : value) : value :=
  VDict [ ("email_addresses",
           VList [ VDict [ ("email", email);
                           ("prioritization", VList [VStr "most_recently_updated"]) ] ]) ].

Definition delete_user (self : BrazeInterface) (email : value) : M value :=
  _request self USERS_DELETE (delete_user_data email) "POST" VNone.

Definition send_campaign (self : BrazeInterface) (email campaign_id : value) : M value :=
  _request self CAMPAIGNS_TRIGGER_SEND
    (VDict [ ("campaign_id", campaign_id);
             ("broadcast", VBool false);
             ("recipients",
              VList [ VDict [ ("user_alias",
                               VDict [ ("alias_label", VStr "email");
                                       ("alias_name", email) ]) ] ]) ])
    "POST" VNone.

Definition get_user_subscriptions (self : BrazeInterface) (external_id email : value)
  : M value :=
  _request self SUBSCRIPTION_USER_STATUS VNone "GET"
    (VDict [("external_id", external_id); ("email", email)]).

Definition save_user (self : BrazeInterface) (braze_user_data : value) : M value :=
  _request self USERS_TRACK braze_user_data "POST" VNone.

(** *** The mapping functions of Braze

    [from_vendor] and [to_vendor] are methods of [Braze] that do not
    touch the interface. *)


(** [braze_user_data.get("custom_attributes", {}).get("user_attributes_v1", [{}])[0]] *)
Definition user_attributes_v1 (braze_user_data : dict) : result value :=
  let? versions :=
    py_get_default (dict_get_default braze_user_data "custom_attributes" (VDict []))
      "user_attributes_v1" (VList [VDict []]) in
  py_index0 versions.

(** [[subscription["id"] for subscription in subscription_groups
      if subscription["status"] == "Subscribed"]] *)
Fixpoint subscribed_ids (subscription_groups : list value) : result (list value) :=
  match subscription_groups with
  | [] => Ok []
  | subscription :: rest =>
      let? status := py_index subscription "status" in
      if py_eq status (VStr "Subscribed") then
        let? id := py_index subscription "id" in
        let? ids := subscribed_ids rest in
        Ok (id :: ids)
      else subscribed_ids rest
  end.

(** [list(filter(None, map(vendor_id_to_slug, subscription_ids)))] *)
Definition newsletter_slugs (subscription_ids : list value) : list value :=
  filter truthy (map vendor_id_to_slug subscription_ids).

Definition from_vendor (braze_user_data : dict) (subscription_groups : value)
  : result dict :=
  let? user_attributes := user_attributes_v1 braze_user_data in
  let? groups := py_iter subscription_groups in
  let? subscription_ids := subscribed_ids groups in
  let newsletters := newsletter_slugs subscription_ids in
  let? email := dict_index braze_user_data "email" in
  let? email_id := dict_index braze_user_data "external_id" in
  let? id := dict_index braze_user_data "braze_id" in
  let first_name := dict_get braze_user_data "first_name" in
  let last_name := dict_get braze_user_data "last_name" in
  let? country :=
    (if truthy (dict_get braze_user_data "country")
     then Ok (dict_get braze_user_data "country")
     else py_get user_attributes "mailing_country") in
  let? lang :=
    (if truthy (dict_get braze_user_data "language")
     then Ok (dict_get braze_user_data "language")
     else py_get_default user_attributes "email_lang" (VStr "en")) in
  let? created_date := py_get user_attributes "created_at" in
  let? last_modified_date := py_get user_attributes "updated_at" in
  let optin := py_eq (dict_get braze_user_data "email_subscribe") (VStr "opted_in") in
  let optout := py_eq (dict_get braze_user_data "email_subscribe") (VStr "unsubscribed") in
  let? token := py_get user_attributes "basket_token" in
  let? fxa_service := py_get user_attributes "fxa_first_service" in
  let? fxa_lang := py_get user_attributes "fxa_lang" in
  let? fxa_primary_email := py_get user_attributes "fxa_primary_email" in
  let? has_fxa := py_get user_attributes "has_fxa" in
  let? fxa_create_date :=
    (if truthy has_fxa then py_get user_attributes "fxa_created_at" else Ok VNone) in
  Ok [ ("email", email);
       ("email_id", email_id);
       ("id", id);
       ("first_name", first_name);
       ("last_name", last_name);
       ("country", country);
       ("lang", lang);
       ("newsletters", VList newsletters);
       ("created_date", created_date);
       ("last_modified_date", last_modified_date);
       ("optin", VBool optin);
       ("optout", VBool optout);
       ("token", token);
       ("fxa_service", fxa_service);
       ("fxa_lang", fxa_lang);
       ("fxa_primary_email", fxa_primary_email);
       ("fxa_create_date", fxa_create_date) ].

(** The loop over [update_data["newsletters"].items()]. *)
Fixpoint subscription_groups_of (newsletters : dict) : list value :=
  match newsletters with
  | [] => []
  | (slug, is_subscribed) :: rest =>
      let vendor_id := slug_to_vendor_id slug in
      if is_valid_uuid vendor_id then
        VDict [ ("subscription_group_id", vendor_id);
                ("subscription_state",
                 VStr (if truthy is_subscribed then "subscribed" else "unsubscribed")) ]
        :: subscription_groups_of rest
      else subscription_groups_of rest
  end.

(** The subscription groups [to_vendor] builds: none unless the update's
    [newsletters] is a dict. *)
Definition update_subscription_groups (update_data : dict) : list value :=
  match dict_get update_data "newsletters" with
  | VDict newsletters => subscription_groups_of newsletters
  | _ => []
  end.

(** ["opted_in" if optin else "unsubscribed" if optout else "subscribed"] *)
Definition email_subscribe (updated_user_data : dict) : string :=
  if truthy (dict_get updated_user_data "optin") then "opted_in"
  else if truthy (dict_get updated_user_data "optout") then "unsubscribed"
  else "subscribed".

(** The four conditional assignments of the billable data points. *)
Definition billable (existing_user_data updated_user_data : dict)
  (country language : value) (user_attributes : dict) : dict :=
  let user_attributes :=
    if py_ne country (dict_get existing_user_data "country")
    then dict_set "country" country user_attributes else user_attributes in
  let user_attributes :=
    if py_ne language (dict_get existing_user_data "language")
    then dict_set "language" language user_attributes else user_attributes in
  let first_name := dict_get updated_user_data "first_name" in
  let user_attributes :=
    if py_ne first_name (dict_get existing_user_data "first_name")
    then dict_set "first_name" first_name user_attributes else user_attributes in
  let last_name := dict_get updated_user_data "last_name" in
  if py_ne last_name (dict_get existing_user_data "last_name")
  then dict_set "last_name" last_name user_attributes else user_attributes.

(** The dict literal [user_attributes] of [to_vendor]. *)
Definition computed_attributes (now : string) (updated_user_data : dict)
  (country language : value) (subscription_groups : list value) : dict :=
  [ ("external_id", dict_get updated_user_data "email_id");
    ("email", dict_get updated_user_data "email");
    ("update_timestamp", VStr now);
    ("_update_existing_only", VBool true);
    ("email_subscribe", VStr (email_subscribe updated_user_data));
    ("subscription_groups", VList subscription_groups);
    ("user_attributes_v1",
     VList [ VDict
       [ ("basket_token", dict_get updated_user_data "token");
         ("created_at",
          VDict [("$time", dict_get_default updated_user_data "created_date" (VStr now))]);
         ("email_lang", language);
         ("mailing_country", country);
         ("updated_at", VDict [("$time", VStr now)]);
         ("has_fxa", VBool (truthy (dict_get updated_user_data "fxa_create_date")));
         ("fxa_created_at", dict_get updated_user_data "fxa_create_date");
         ("fxa_first_service", dict_get updated_user_data "fxa_service");
         ("fxa_lang", dict_get updated_user_data "fxa_lang");
         ("fxa_primary_email", dict_get updated_user_data "fxa_primary_email") ] ]) ].

(** [Braze.to_vendor]; [now] is the reading of
    [timezone.now().isoformat()]. *)
Definition to_vendor (now : string)
  (basket_user_data update_data custom_attributes : option dict) (events : value)
  : result value :=
  let existing_user_data := or_empty basket_user_data in
  let updated_user_data := dict_merge existing_user_data (or_empty update_data) in
  let country := process_country (dict_get updated_user_data "country") in
  let language := process_lang (dict_get updated_user_data "lang") in
  match update_data with
  | None => Raise AttributeError  (* [update_data.get] on [None] *)
  | Some update =>
      let subscription_groups := update_subscription_groups update in
      let user_attributes :=
        computed_attributes now updated_user_data country language subscription_groups in
      let user_attributes :=
        billable existing_user_data updated_user_data country language user_attributes in
      let braze_data :=
        [ ("attributes",
           VList [VDict (dict_merge user_attributes (or_empty custom_attributes))]) ] in
      Ok (VDict (if truthy events then dict_set "events" events braze_data else braze_data))
  end.

(** *** Braze *)

Definition fields_to_export : value :=
  VList (map VStr
    [ "braze_id"; "country"; "created_at"; "custom_attributes"; "email";
      "email_subscribe"; "external_id"; "first_name"; "language"; "last_name" ]).

(** [Braze.get]: the local record, or [None] when the vendor knows no
    user.  [email_id] and [fxa_id] are accepted and not used. *)
Definition get (self : Braze) (email_id token email fxa_id : value) : M value :=
  user_response <- export_users (interface self) email fields_to_export token ;;
  users <- lift (py_index user_response "users") ;;
  if truthy users then
    user_data <- lift (py_index0 users) ;;
    external_id <- lift (py_index user_data "external_id") ;;
    subscription_response <- get_user_subscriptions (interface self) external_id email ;;
    subscription_users <-
      lift (py_get_default subscription_response "users" (VList [VDict []])) ;;
    first <- lift (py_index0 subscription_users) ;;
    subscriptions <- lift (py_get_default first "subscription_groups" (VList [])) ;;
    match user_data with
    | VDict braze_user_data =>
        basket_user_data <- lift (from_vendor braze_user_data subscriptions) ;;
        ret (VDict basket_user_data)
    | _ => raise TypeError  (* not reached: the subscript above needs a dict *)
    end
  else ret VNone.

(** [Braze.add].  [data.email] reads an attribute, which a dict does not
    have. *)
Definition add (self : Braze) (now : string) (data : dict) : M value :=
  let custom_attributes := [("_update_existing_only", VBool false)] in
  custom_attributes <-
    (if negb (truthy (dict_get data "email_id")) then raise AttributeError
     else ret custom_attributes) ;;
  braze_user_data <- lift (to_vendor now None (Some data) (Some custom_attributes) VNone) ;;
  _ <- save_user (interface self) braze_user_data ;;
  ret VNone.

Definition update (self : Braze) (existing_data update_data : value) : M value :=
  raise NotImplementedError.

Definition update_by_fxa_id (self : Braze) (fxa_id update_data : value) : M value :=
  raise NotImplementedError.

Definition update_by_token (self : Braze) (token update_data : value) : M value :=
  raise NotImplementedError.

(** [Braze.delete] *)
Definition delete (self : Braze) (email : value) : M value :=
  data <- get self VNone VNone email VNone ;;
  if negb (truthy data) then raise BrazeUserNotFoundByEmailError
  else
    _ <- delete_user (interface self) email ;;
    ret (VList [data]).

(** *** Reading payloads and logs *)

(** The single attributes object of a [/users/track] payload. *)
Definition payload_attributes (payload : value) : option dict :=
  match payload with
  | VDict p =>
      match dict_find "attributes" p with
      | Some (VList [VDict attributes]) => Some attributes
      | _ => None
      end
  | _ => None
  end.

(** A run from [log] to [log'] that issued calls, none of them to the
    delete endpoint. *)
Definition no_delete_call (log log' : list http_call) : Prop :=
  exists calls,
    log' = (log ++ calls)%list /\
    Forall (fun call => call_endpoint call <> USERS_DELETE) calls.

(** A computation none of whose runs calls the delete endpoint. *)
Definition never_deletes {A : Type} (m : M A) : Prop :=
  forall log r log', m log = (r, log') -> no_delete_call log log'.

(** A dict as Python holds it: no key twice. *)
Definition distinct_keys (d : dict) : Prop := NoDup (map fst d).

(** A computation all of whose runs only add calls that satisfy [P]. *)
Definition issues_only {A : Type} (P : http_call -> Prop) (m : M A) : Prop :=
  forall log r log', m log = (r, log') ->
    exists calls, log' = (log ++ calls)%list /\ Forall P calls.

(** A call as the client [self] sends it: to the endpoint's path under
    the client's root URL, with the bearer token and the JSON content
    type. *)
Definition sent_by (self : BrazeInterface) (call : http_call) : Prop :=
  call_url call = urljoin (api_url self) (endpoint_value (call_endpoint call)) /\
  call_headers call = [ ("Authorization", bearer (api_key self));
                        ("Content-Type", "application/json") ].

(** The subscription group [to_vendor] makes of one item of the
    newsletters mapping. *)
Definition subscription_group (item : string * value) : value :=
  VDict [ ("subscription_group_id", slug_to_vendor_id (fst item));
          ("subscription_state",
           VStr (if truthy (snd item) then "subscribed" else "unsubscribed")) ].

(** A call the client [self] sends to one of [endpoints], by GET to the
    subscription status and by POST to every other endpoint. *)
Definition sent_to (endpoints : list BrazeEndpoint) (self : BrazeInterface)
  (call : http_call) : Prop :=
  sent_by self call /\
  In (call_endpoint call) endpoints /\
  call_method call
  = match call_endpoint call with
    | SUBSCRIPTION_USER_STATUS => "GET"
    | _ => "POST"
    end.

(** *** The spec's sentences to be compared with the code *)

(** The claim about [track_user] with an [email_id] in [user_data]: one
    attributes object addressed by the external id, with no alias block
    and no [_update_existing_only], holding a [basket_token] only when
    [user_data] carries one. *)
Definition track_user_email_id_claim (email : value) (user_data : dict) : Prop :=
  truthy (dict_get user_data "email_id") = true ->
  forall (now : string) (event : value),
  exists attributes,
    dict_find "attributes" (track_user_data now email event (Some user_data))
      = Some (VList [VDict attributes]) /\
    dict_find "external_id" attributes = Some (dict_get user_data "email_id") /\
    dict_has "user_alias" attributes = false /\
    dict_has "_update_existing_only" attributes = false /\
    (dict_has "basket_token" attributes = true -> dict_has "basket_token" user_data = true).

(** The claim about the constructor: a base URL with a scheme and a host
    gives a client, and a base URL that lacks the scheme or the host makes
    the constructor raise.  The host of a URL is the [hostname] of its
    parse. *)
Definition base_url_claim : Prop :=
  forall (base_url : string) (api_key : option string) (urlbits : ParseResult),
    urlparse base_url = Ok urlbits ->
    (scheme urlbits <> "" /\ hostname urlbits <> None ->
     exists self warnings, BrazeInterface_init base_url api_key = Ok (self, warnings)) /\
    (scheme urlbits = "" \/ hostname urlbits = None ->
     exists e, BrazeInterface_init base_url api_key = Raise e).

(** The claim about the request layer: every response whose status is
    not 2xx makes [_request] raise. *)
Definition non_2xx_raises_claim : Prop :=
  forall self endpoint data method params log status_code text json,
    active self = true ->
    server log (request_call self endpoint data method params)
      = Response status_code text json ->
    status_code < 200 \/ 299 < status_code ->
    exists e, fst (_request self endpoint data method params log) = Raise e.

(** The round-trip claim: when every group id has a slug, the local
    record [from_vendor] makes of a vendor record and its subscription
    groups, fed to [to_vendor] (as the update record when [as_update],
    else as the existing record), gives a payload with the vendor record's
    [email_subscribe] and, for every subscribed group, that group in state
    subscribed. *)
Definition round_trip_claim (now : string) (as_update : bool)
  (braze_user_data : dict) (subscription_groups : list dict) : Prop :=
  Forall (fun group => vendor_id_to_slug (dict_get group "id") <> VNone)
    subscription_groups ->
  exists local payload attributes groups,
    from_vendor braze_user_data (VList (map VDict subscription_groups)) = Ok local /\
    (if as_update then to_vendor now None (Some local) None VNone
     else to_vendor now (Some local) None None VNone) = Ok payload /\
    payload_attributes payload = Some attributes /\
    dict_find "email_subscribe" attributes = dict_find "email_subscribe" braze_user_data /\
    dict_find "subscription_groups" attributes = Some (VList groups) /\
    forall group, In group subscription_groups ->
      py_eq (dict_get group "status") (VStr "Subscribed") = true ->
      In (VDict [ ("subscription_group_id", dict_get group "id");
                  ("subscription_state", VStr "subscribed") ]) groups.

(** The newsletters of a local record as the spec words them: keep the
    groups whose status is "Subscribed", map each id through the vendor-id
    to slug lookup, drop the ids with no slug, keep the order. *)
Definition newsletters_spec (subscription_groups : list dict) : list value :=
  let subscribed :=
    filter (fun group => py_eq (dict_get group "status") (VStr "Subscribed"))
      subscription_groups in
  let slugs := map (fun group => vendor_id_to_slug (dict_get group "id")) subscribed in
  filter (fun slug => match slug with VNone => false | _ => true end) slugs.

(** A vendor record [from_vendor] can read: the three keys it subscripts
    are there, and the versioned attributes are a dict. *)
Definition readable_record (braze_user_data : dict) : Prop :=
  dict_has "email" braze_user_data = true /\
  dict_has "external_id" braze_user_data = true /\
  dict_has "braze_id" braze_user_data = true /\
  exists user_attributes, user_attributes_v1 braze_user_data = Ok (VDict user_attributes).

(** A subscription group as the vendor sends it: an id and a status. *)
Definition is_group (group : dict) : Prop :=
  dict_has "id" group = true /\ dict_has "status" group = true.

(** *** Facts about dictionaries *)

(** Splits a successful chain of [let?] into its successful steps. *)
Ltac invert_rbind H :=
  repeat match type of H with
         | rbind ?r _ = Ok _ =>
             let E := fresh "E" in
             destruct r eqn:E; cbn [rbind] in H; [|discriminate H]
         end.

Lemma dict_find_set_same (k : string) (v : value) (d : dict) :
  dict_find k (dict_set k v d) = Some v.
Proof.
  induction d as [|[k' v'] r IH]; simpl.
  - now rewrite String.eqb_refl.
  - destruct (k =? k')%string eqn:E; simpl; rewrite E; auto.
Qed.

Lemma dict_find_set_other (k k' : string) (v : value) (d : dict) :
  (k =? k')%string = false -> dict_find k (dict_set k' v d) = dict_find k d.
Proof.
  intros Hne. induction d as [|[k0 v0] r IH]; simpl.
  - now rewrite Hne.
  - destruct (k' =? k0)%string eqn:E; simpl.
    + apply String.eqb_eq in E. subst k0. now rewrite Hne.
    + now rewrite IH.
Qed.

Lemma dict_has_set (k k' : string) (v : value) (d : dict) :
  dict_has k (dict_set k' v d) = (k =? k')%string || dict_has k d.
Proof.
  unfold dict_has. destruct (k =? k')%string eqn:E.
  - apply String.eqb_eq in E. subst k'. now rewrite dict_find_set_same.
  - now rewrite dict_find_set_other.
Qed.

Lemma dict_has_merge (k : string) (b a : dict) :
  dict_has k (dict_merge a b) = dict_has k a || dict_has k b.
Proof.
  unfold dict_merge. revert a.
  induction b as [|[k' v'] r IH]; intros a; simpl.
  - now rewrite orb_false_r.
  - rewrite IH, dict_has_set. unfold dict_has at 4. simpl.
    destruct (k =? k')%string; simpl.
    + now rewrite orb_true_r.
    + reflexivity.
Qed.

Lemma dict_find_merge_absent (k : string) (b a : dict) :
  dict_has k b = false -> dict_find k (dict_merge a b) = dict_find k a.
Proof.
  unfold dict_merge, dict_has. revert a.
  induction b as [|[k' v'] r IH]; intros a Hb; simpl in *.
  - reflexivity.
  - destruct (k =? k')%string eqn:E; [discriminate|].
    rewrite IH by assumption. now apply dict_find_set_other.
Qed.

Lemma dict_find_remove_other (k k' : string) (d : dict) :
  (k =? k')%string = false -> dict_find k (dict_remove k' d) = dict_find k d.
Proof.
  intros Hne. induction d as [|[k0 v0] r IH]; simpl.
  - reflexivity.
  - destruct (k' =? k0)%string eqn:E; simpl.
    + apply String.eqb_eq in E. subst k0. now rewrite Hne.
    + now rewrite IH.
Qed.

Lemma dict_get_find (d : dict) (k : string) (v : value) :
  dict_find k d = Some v -> dict_get d k = v.
Proof. unfold dict_get, dict_get_default. now intros ->. Qed.

(** *** to_vendor: the payload and its billable data points *)

Lemma payload_attributes_events (events : value) (attributes : dict) :
  payload_attributes
    (VDict (if truthy events
            then dict_set "events" events [("attributes", VList [VDict attributes])]
            else [("attributes", VList [VDict attributes])]))
  = Some attributes.
Proof. destruct (truthy events); reflexivity. Qed.

(** With an update record [to_vendor] returns a payload; its single
    attributes object is the billable-filtered literal overlaid with the
    caller's custom attributes. *)
Lemma to_vendor_payload (now : string) (existing : option dict) (update : dict)
  (custom_attributes : option dict) (events : value) :
  exists payload,
    to_vendor now existing (Some update) custom_attributes events = Ok payload /\
    payload_attributes payload =
      Some (dict_merge
              (billable (or_empty existing) (dict_merge (or_empty existing) update)
                 (process_country (dict_get (dict_merge (or_empty existing) update) "country"))
                 (process_lang (dict_get (dict_merge (or_empty existing) update) "lang"))
                 (computed_attributes now (dict_merge (or_empty existing) update)
                    (process_country (dict_get (dict_merge (or_empty existing) update) "country"))
                    (process_lang (dict_get (dict_merge (or_empty existing) update) "lang"))
                    (update_subscription_groups update)))
              (or_empty custom_attributes)).
Proof.
  unfold to_vendor. cbn [or_empty].
  eexists. split; [reflexivity|].
  apply payload_attributes_events.
Qed.

Lemma billable_find (key : string) (ex up : dict) (country language : value) (base : dict) :
  (key =? "country")%string = false -> (key =? "language")%string = false ->
  (key =? "first_name")%string = false -> (key =? "last_name")%string = false ->
  dict_find key (billable ex up country language base) = dict_find key base.
Proof.
  intros H1 H2 H3 H4. unfold billable.
  repeat match goal with
         | |- context [if ?c then _ else _] => destruct c
         end;
  repeat (rewrite dict_find_set_other by assumption); reflexivity.
Qed.

(** Which billable keys the filtered literal holds: each one exactly when
    the comparison the code makes finds a difference. *)
Lemma billable_has (ex up : dict) (country language : value) (base : dict) :
  dict_has "country" base = false -> dict_has "language" base = false ->
  dict_has "first_name" base = false -> dict_has "last_name" base = false ->
  let attributes := billable ex up country language base in
  dict_has "country" attributes = py_ne country (dict_get ex "country") /\
  dict_has "language" attributes = py_ne language (dict_get ex "language") /\
  dict_has "first_name" attributes =
    py_ne (dict_get up "first_name") (dict_get ex "first_name") /\
  dict_has "last_name" attributes =
    py_ne (dict_get up "last_name") (dict_get ex "last_name").
Proof.
  intros Hc Hl Hf Hn. unfold billable.
  destruct (py_ne country _), (py_ne language _), (py_ne (dict_get up "first_name") _),
    (py_ne (dict_get up "last_name") _); cbn zeta;
  repeat rewrite dict_has_set; rewrite ?Hc, ?Hl, ?Hf, ?Hn; repeat split; reflexivity.
Qed.

(** What the code emits, for every call with an update record whose
    custom attributes name no billable key: the key [country] exactly when
    the normalized merged country differs from the existing record's raw
    [country], [language] exactly when the normalized merged [lang] differs
    from the existing record's [language] entry, and each name exactly
    when the merged name differs from the existing one. *)
Lemma to_vendor_billable_keys (now : string) (existing : option dict) (update : dict)
  (custom_attributes : option dict) (events : value) :
  dict_has "country" (or_empty custom_attributes) = false ->
  dict_has "language" (or_empty custom_attributes) = false ->
  dict_has "first_name" (or_empty custom_attributes) = false ->
  dict_has "last_name" (or_empty custom_attributes) = false ->
  let merged := dict_merge (or_empty existing) update in
  exists payload attributes,
    to_vendor now existing (Some update) custom_attributes events = Ok payload /\
    payload_attributes payload = Some attributes /\
    dict_has "country" attributes =
      py_ne (process_country (dict_get merged "country")) (dict_get (or_empty existing) "country") /\
    dict_has "language" attributes =
      py_ne (process_lang (dict_get merged "lang")) (dict_get (or_empty existing) "language") /\
    dict_has "first_name" attributes =
      py_ne (dict_get merged "first_name") (dict_get (or_empty existing) "first_name") /\
    dict_has "last_name" attributes =
      py_ne (dict_get merged "last_name") (dict_get (or_empty existing) "last_name").
Proof.
  intros Hc Hl Hf Hn merged.
  destruct (to_vendor_payload now existing update custom_attributes events)
    as (payload & Hok & Hattrs).
  exists payload. eexists. split; [exact Hok|]. split; [exact Hattrs|].
  rewrite !dict_has_merge, Hc, Hl, Hf, Hn, !orb_false_r.
  apply billable_has; reflexivity.
Qed.

(** C1, the code at the claim's own input: the existing record stores
    country "US", the update repeats "US", and the helper lower-cases it.
    The payload carries the key [country] with value "us": the normalized
    value is compared with the raw stored one, so the unchanged country is
    sent again where the claim has it omitted. *)
Theorem to_vendor_resends_unchanged_country (now : string) (events : value) :
  process_country (VStr "US") = VStr "us" ->
  exists payload attributes,
    to_vendor now (Some [("country", VStr "US")]) (Some [("country", VStr "US")]) None events
      = Ok payload /\
    payload_attributes payload = Some attributes /\
    dict_find "country" attributes = Some (VStr "us").
Proof.
  intros Hus.
  destruct (to_vendor_payload now (Some [("country", VStr "US")]) [("country", VStr "US")]
              None events) as (payload & Hok & Hattrs).
  exists payload. eexists. split; [exact Hok|]. split; [exact Hattrs|].
  cbn [or_empty dict_merge fold_left dict_set fst snd String.eqb Ascii.eqb Bool.eqb].
  unfold billable.
  change (dict_get [("country", VStr "US")] "country") with (VStr "US").
  rewrite Hus.
  change (py_ne (VStr "us") (VStr "US")) with true. cbn iota.
  repeat match goal with
         | |- context [if ?c then _ else _] => destruct c
         end;
  repeat (rewrite dict_find_set_other by reflexivity);
  rewrite ?dict_find_set_same; try reflexivity.
Qed.

(** C2, the code with no update record: [update_data.get] is called on
    [None], so every such call ends in an AttributeError and none
    produces a payload, where the claim has both calls succeed. *)
Theorem to_vendor_without_update_raises (now : string) (existing custom_attributes : option dict)
  (events : value) :
  to_vendor now existing None custom_attributes events = Raise AttributeError.
Proof. reflexivity. Qed.

(** X22: unless the caller's custom attributes say otherwise, the payload
    asks the vendor to update existing users only. *)
Lemma to_vendor_update_existing_only (now : string) (existing : option dict) (update : dict)
  (custom_attributes : option dict) (events : value) :
  dict_has "_update_existing_only" (or_empty custom_attributes) = false ->
  exists payload attributes,
    to_vendor now existing (Some update) custom_attributes events = Ok payload /\
    payload_attributes payload = Some attributes /\
    dict_find "_update_existing_only" attributes = Some (VBool true).
Proof.
  intros Hca.
  destruct (to_vendor_payload now existing update custom_attributes events)
    as (payload & Hok & Hattrs).
  exists payload. eexists. split; [exact Hok|]. split; [exact Hattrs|].
  rewrite dict_find_merge_absent by assumption.
  rewrite billable_find by reflexivity. reflexivity.
Qed.

(** *** The transport client *)

Lemma _request_inactive (self : BrazeInterface) (endpoint : BrazeEndpoint)
  (data : value) (method : string) (params : value) (log : list http_call) :
  active self = false -> _request self endpoint data method params log = (Ok VNone, log).
Proof. unfold _request. now intros ->. Qed.

Lemma _request_active_log (self : BrazeInterface) (endpoint : BrazeEndpoint)
  (data : value) (method : string) (params : value) (log : list http_call) :
  active self = true ->
  snd (_request self endpoint data method params log)
    = (log ++ [request_call self endpoint data method params])%list.
Proof.
  unfold _request. intros ->. cbn [negb].
  destruct (server log _) as [status_code text json|]; [|reflexivity].
  destruct (raise_for_status status_code); [reflexivity|].
  destruct json; reflexivity.
Qed.

Lemma BrazeInterface_init_ok (base_url : string) (api_key : option string)
  (urlbits : ParseResult) :
  urlparse base_url = Ok urlbits ->
  scheme urlbits <> "" -> netloc urlbits <> "" ->
  BrazeInterface_init base_url api_key
  = Ok ({| api_url := (scheme urlbits ++ "://" ++ netloc urlbits)%string;
           api_key := api_key;
           active := key_configured api_key |},
        if negb (key_configured api_key) then ["Braze API key is not configured"] else []).
Proof.
  intros Hparse Hs Hn. unfold BrazeInterface_init. rewrite Hparse. cbn [rbind].
  apply String.eqb_neq in Hs. apply String.eqb_neq in Hn. now rewrite Hs, Hn.
Qed.

(** A parse with a host has a network location: the host is a part of
    it. *)
Lemma hostname_netloc (urlbits : ParseResult) :
  hostname urlbits <> None -> netloc urlbits <> "".
Proof.
  intros Hhost Hnetloc. apply Hhost. unfold hostname. now rewrite Hnetloc.
Qed.

(** C8, amended: the constructor looks at the scheme and the network
    location of the parsed base URL.  When both are non-empty it returns a
    client whose API root is scheme://netloc, so a base URL with a scheme
    and a host is accepted; when either is empty it raises ValueError
    "Invalid base_url"; and when [urlparse] itself raises, that error is
    what the constructor raises. *)
Theorem init_checks_base_url (base_url : string) (api_key : option string) :
  (forall urlbits,
     urlparse base_url = Ok urlbits ->
     scheme urlbits <> "" /\ netloc urlbits <> "" ->
     exists self warnings,
       BrazeInterface_init base_url api_key = Ok (self, warnings) /\
       api_url self = (scheme urlbits ++ "://" ++ netloc urlbits)%string) /\
  (forall urlbits,
     urlparse base_url = Ok urlbits ->
     scheme urlbits <> "" /\ hostname urlbits <> None ->
     exists self warnings, BrazeInterface_init base_url api_key = Ok (self, warnings)) /\
  (forall urlbits,
     urlparse base_url = Ok urlbits ->
     scheme urlbits = "" \/ netloc urlbits = "" ->
     BrazeInterface_init base_url api_key = Raise (ValueError "Invalid base_url")) /\
  (forall e,
     urlparse base_url = Raise e ->
     BrazeInterface_init base_url api_key = Raise e).
Proof.
  split; [|split; [|split]].
  - intros urlbits Hparse [Hs Hn].
    rewrite (BrazeInterface_init_ok _ _ urlbits) by assumption.
    eexists. eexists. split; reflexivity.
  - intros urlbits Hparse [Hs Hhost].
    rewrite (BrazeInterface_init_ok _ _ urlbits) by auto using hostname_netloc.
    eexists. eexists. reflexivity.
  - intros urlbits Hparse H. unfold BrazeInterface_init. rewrite Hparse. cbn [rbind].
    destruct H as [H|H]; rewrite H; cbn [String.eqb orb]; [reflexivity|].
    now rewrite orb_true_r.
  - intros e Hparse. unfold BrazeInterface_init. now rewrite Hparse.
Qed.

(** C4: with an empty API key (the empty string, or no key at all) and
    a well-formed base URL the constructor returns a client with [active]
    false, and one warning, and on that client each of the six operations
    returns [None] and leaves the log of HTTP calls as it was. *)
Theorem inactive_client_is_noop (base_url : string) (api_key : option string)
  (urlbits : ParseResult) :
  urlparse base_url = Ok urlbits ->
  scheme urlbits <> "" -> netloc urlbits <> "" ->
  api_key = Some "" \/ api_key = None ->
  exists self,
    BrazeInterface_init base_url api_key = Ok (self, ["Braze API key is not configured"]) /\
    active self = false /\
    forall (now : string) (email event : value) (user_data : option dict)
           (fields external_id campaign_id payload : value) (log : list http_call),
      track_user self now email event user_data log = (Ok VNone, log) /\
      export_users self email fields external_id log = (Ok VNone, log) /\
      delete_user self email log = (Ok VNone, log) /\
      send_campaign self email campaign_id log = (Ok VNone, log) /\
      get_user_subscriptions self external_id email log = (Ok VNone, log) /\
      save_user self payload log = (Ok VNone, log).
Proof.
  intros Hparse Hs Hn Hkey. rewrite (BrazeInterface_init_ok _ _ urlbits) by assumption.
  assert (Hoff : key_configured api_key = false) by (destruct Hkey; subst; reflexivity).
  rewrite Hoff. cbn [negb].
  eexists. split; [reflexivity|]. split; [reflexivity|].
  intros. repeat split; apply _request_inactive; reflexivity.
Qed.

Lemma http_error_other (status_code : Z) (message : string) :
  status_code < 500 \/ 599 < status_code ->
  status_code <> 400 -> status_code <> 401 -> status_code <> 403 ->
  status_code <> 404 -> status_code <> 429 ->
  http_error status_code message = BrazeClientError message.
Proof.
  intros Hrange H0 H1 H3 H4 H9. unfold http_error.
  destruct (Z.eqb_spec status_code 400); [contradiction|].
  destruct (Z.eqb_spec status_code 401); [contradiction|].
  destruct (Z.eqb_spec status_code 403); [contradiction|].
  destruct (Z.eqb_spec status_code 404); [contradiction|].
  destruct (Z.eqb_spec status_code 429); [contradiction|].
  rewrite Z.geb_leb.
  destruct (Z.leb_spec 500 status_code), (Z.leb_spec status_code 599);
    try reflexivity; lia.
Qed.

Lemma http_error_server (status_code : Z) (message : string) :
  500 <= status_code <= 599 ->
  http_error status_code message = BrazeInternalServerError message.
Proof.
  intros Hrange. unfold http_error.
  destruct (Z.eqb_spec status_code 400); [lia|].
  destruct (Z.eqb_spec status_code 401); [lia|].
  destruct (Z.eqb_spec status_code 403); [lia|].
  destruct (Z.eqb_spec status_code 404); [lia|].
  destruct (Z.eqb_spec status_code 429); [lia|].
  rewrite Z.geb_leb.
  destruct (Z.leb_spec 500 status_code), (Z.leb_spec status_code 599);
    try reflexivity; lia.
Qed.

(** C5, amended: an active client issues the one call, and when the
    response has a status from 400 to 599 [_request] raises the error
    classified by the status, with the response text as its message: 400
    BadRequest, 401 Unauthorized, 403 Forbidden, 404 NotFound, 429
    RateLimit, 500 to 599 InternalServer, and any other status below 500
    the generic BrazeClientError.  A response with any other status
    raises none of these: its JSON body is returned. *)
Theorem request_classifies_http_errors (self : BrazeInterface) (endpoint : BrazeEndpoint)
  (data : value) (method : string) (params : value) (log : list http_call)
  (status_code : Z) (text : string) (json : option value) :
  active self = true ->
  server log (request_call self endpoint data method params) = Response status_code text json ->
  let log' := (log ++ [request_call self endpoint data method params])%list in
  (400 <= status_code <= 599 ->
   exists e,
     _request self endpoint data method params log = (Raise e, log') /\
     (status_code = 400 -> e = BrazeBadRequestError text) /\
     (status_code = 401 -> e = BrazeUnauthorizedError text) /\
     (status_code = 403 -> e = BrazeForbiddenError text) /\
     (status_code = 404 -> e = BrazeNotFoundError text) /\
     (status_code = 429 -> e = BrazeRateLimitError text) /\
     (500 <= status_code -> e = BrazeInternalServerError text) /\
     (status_code < 500 -> status_code <> 400 -> status_code <> 401 -> status_code <> 403 ->
      status_code <> 404 -> status_code <> 429 -> e = BrazeClientError text)) /\
  (status_code < 400 \/ 599 < status_code ->
   forall body, json = Some body ->
     _request self endpoint data method params log = (Ok body, log')).
Proof.
  intros Hactive Hresponse log'. split.
  - intros Hrange. exists (http_error status_code text). split.
    + unfold _request. rewrite Hactive, Hresponse. cbn [negb].
      unfold raise_for_status.
      destruct (Z.leb_spec 400 status_code); [|lia].
      destruct (Z.ltb_spec status_code 600); [reflexivity | lia].
    + repeat split; intros; subst; try reflexivity.
      * apply http_error_server; lia.
      * apply http_error_other; auto.
  - intros Hrange body ->. unfold _request. rewrite Hactive, Hresponse. cbn [negb].
    unfold raise_for_status.
    destruct (Z.leb_spec 400 status_code), (Z.ltb_spec status_code 600);
      try reflexivity; lia.
Qed.

(** C3: for every [user_data] with a true [email_id], the payload of
    [track_user] has one attributes object with exactly the keys [email],
    [external_id] and [basket_token], so no alias block and no
    [_update_existing_only], and [external_id] is the [email_id].  The
    key [basket_token] is there whether or not [user_data] carries a
    token: it holds the token when there is one, and otherwise what
    [user_data and user_data.pop("basket_token", None)] leaves, the
    emptied [user_data] itself when [email_id] was its only key and
    [None] when it has other keys.  An active client sends this payload
    in its one call. *)
Theorem track_user_with_email_id (self : BrazeInterface) (now : string)
  (email event : value) (user_data : dict) (log : list http_call) :
  truthy (dict_get user_data "email_id") = true ->
  exists basket_token,
    dict_find "attributes" (track_user_data now email event (Some user_data))
      = Some (VList [VDict [ ("email", email);
                             ("external_id", dict_get user_data "email_id");
                             ("basket_token", basket_token) ]]) /\
    (dict_has "basket_token" user_data = true ->
     basket_token = dict_get user_data "basket_token") /\
    (dict_has "basket_token" user_data = false ->
     basket_token = match dict_remove "email_id" user_data with
                    | [] => VDict []
                    | _ :: _ => VNone
                    end) /\
    (active self = true ->
     snd (track_user self now email event (Some user_data) log)
       = (log ++ [request_call self USERS_TRACK
                    (VDict (track_user_data now email event (Some user_data)))
                    "POST" VNone])%list).
Proof.
  intros Hid.
  assert (Hpop : and_pop (Some user_data) "email_id"
                 = (dict_get user_data "email_id", Some (dict_remove "email_id" user_data))).
  { destruct user_data; [discriminate Hid | reflexivity]. }
  set (rest := dict_remove "email_id" user_data).
  exists (fst (and_pop (Some rest) "basket_token")).
  split; [|split; [|split]].
  - unfold track_user_data, track_user_attributes. rewrite Hpop. fold rest.
    destruct (and_pop (Some rest) "basket_token") as [basket_token after].
    cbn [fst]. rewrite Hid.
    destruct (truthy event); reflexivity.
  - intros Hhas.
    assert (Hrest : dict_find "basket_token" rest = dict_find "basket_token" user_data)
      by (apply dict_find_remove_other; reflexivity).
    unfold dict_has in Hhas. unfold dict_get, dict_get_default. rewrite <- Hrest in *.
    destruct rest; [discriminate Hhas | reflexivity].
  - intros Hhas.
    assert (Hrest : dict_find "basket_token" rest = dict_find "basket_token" user_data)
      by (apply dict_find_remove_other; reflexivity).
    unfold dict_has in Hhas. rewrite <- Hrest in Hhas.
    destruct rest as [|kv rest']; [reflexivity|].
    cbn [and_pop fst]. unfold dict_get, dict_get_default.
    destruct (dict_find "basket_token" (kv :: rest')); [discriminate Hhas | reflexivity].
  - intros Hactive. unfold track_user. now apply _request_active_log.
Qed.

(** *** from_vendor *)

Lemma subscribed_ids_groups (groups : list dict) :
  Forall is_group groups ->
  subscribed_ids (map VDict groups)
    = Ok (map (fun group => dict_get group "id")
            (filter (fun group => py_eq (dict_get group "status") (VStr "Subscribed")) groups)).
Proof.
  induction 1 as [|group rest [Hid Hstatus] _ IH]; [reflexivity|].
  cbn [map subscribed_ids filter py_index]. unfold dict_index.
  unfold dict_has in Hid, Hstatus.
  destruct (dict_find "status" group) as [status|] eqn:Es; [|discriminate Hstatus].
  destruct (dict_find "id" group) as [id|] eqn:Ei; [|discriminate Hid].
  cbn [rbind]. rewrite IH.
  rewrite (dict_get_find _ _ _ Es).
  destruct (py_eq status (VStr "Subscribed")); [|reflexivity].
  cbn [rbind map]. now rewrite (dict_get_find _ _ _ Ei).
Qed.

(** What a successful [from_vendor] returns: a record that merging into
    an empty dict leaves as it is, whose newsletters are the slugs of the
    subscribed ids and whose [optin] and [optout] read [email_subscribe]. *)
Lemma from_vendor_ok (braze_user_data : dict) (subscription_groups : value) (local : dict) :
  from_vendor braze_user_data subscription_groups = Ok local ->
  exists groups ids,
    py_iter subscription_groups = Ok groups /\
    subscribed_ids groups = Ok ids /\
    dict_merge [] local = local /\
    truthy (VDict local) = true /\
    dict_find "newsletters" local = Some (VList (newsletter_slugs ids)) /\
    dict_find "optin" local
      = Some (VBool (py_eq (dict_get braze_user_data "email_subscribe") (VStr "opted_in"))) /\
    dict_find "optout" local
      = Some (VBool (py_eq (dict_get braze_user_data "email_subscribe") (VStr "unsubscribed"))).
Proof.
  unfold from_vendor. intros H. invert_rbind H.
  injection H as <-.
  eexists. eexists. repeat split; try eassumption; reflexivity.
Qed.

(** C9: for a readable vendor record and a list of subscription groups,
    [from_vendor] returns a local record whose [newsletters] are the
    slugs of the groups with status "Subscribed", each id mapped through
    the lookup, the ids without a slug dropped, in the order of the vendor's
    list.  The lookup yields a slug or nothing; a slug is a non-empty
    string. *)
Theorem from_vendor_newsletters (braze_user_data : dict) (subscription_groups : list dict) :
  (forall id, vendor_id_to_slug id = VNone \/ truthy (vendor_id_to_slug id) = true) ->
  readable_record braze_user_data ->
  Forall is_group subscription_groups ->
  exists local,
    from_vendor braze_user_data (VList (map VDict subscription_groups)) = Ok local /\
    dict_find "newsletters" local = Some (VList (newsletters_spec subscription_groups)).
Proof.
  intros Hslug (Hemail & Hext & Hbraze & user_attributes & Hua) Hgroups.
  assert (Hspec : newsletter_slugs
                    (map (fun group => dict_get group "id")
                       (filter (fun group => py_eq (dict_get group "status") (VStr "Subscribed"))
                          subscription_groups))
                  = newsletters_spec subscription_groups).
  { unfold newsletter_slugs, newsletters_spec. rewrite map_map.
    apply filter_ext_in. intros slug Hin.
    apply in_map_iff in Hin. destruct Hin as (group & <- & _).
    destruct (Hslug (dict_get group "id")) as [-> | Ht]; [reflexivity|].
    rewrite Ht. destruct (vendor_id_to_slug (dict_get group "id")); try reflexivity.
    discriminate Ht. }
  unfold from_vendor. rewrite Hua. cbn [rbind py_iter].
  rewrite (subscribed_ids_groups _ Hgroups). cbn [rbind].
  unfold dict_index. unfold dict_has in Hemail, Hext, Hbraze.
  destruct (dict_find "email" braze_user_data); [|discriminate Hemail].
  destruct (dict_find "external_id" braze_user_data); [|discriminate Hext].
  destruct (dict_find "braze_id" braze_user_data); [|discriminate Hbraze].
  cbn [rbind].
  destruct (truthy (dict_get braze_user_data "country"));
    destruct (truthy (dict_get braze_user_data "language"));
    cbn [rbind py_get py_get_default];
    destruct (truthy (dict_get_default user_attributes "has_fxa" VNone));
    cbn [rbind py_get py_get_default];
    (eexists; split; [reflexivity|]); cbn; now rewrite Hspec.
Qed.

Lemma round_trip_payload (now : string) (braze_user_data : dict)
  (subscription_groups : value) (local : dict) (events : value)
  (existing : option dict) (update : dict) :
  from_vendor braze_user_data subscription_groups = Ok local ->
  dict_find "email_subscribe" braze_user_data = Some (VStr "opted_in") \/
  dict_find "email_subscribe" braze_user_data = Some (VStr "unsubscribed") \/
  dict_find "email_subscribe" braze_user_data = Some (VStr "subscribed") ->
  dict_merge (or_empty existing) update = local ->
  update_subscription_groups update = [] ->
  exists payload attributes,
    to_vendor now existing (Some update) None events = Ok payload /\
    payload_attributes payload = Some attributes /\
    dict_find "email_subscribe" attributes = dict_find "email_subscribe" braze_user_data /\
    dict_find "subscription_groups" attributes = Some (VList []).
Proof.
  intros Hfrom Hstate Hmerge Hgroups.
  destruct (from_vendor_ok _ _ _ Hfrom)
    as (groups & ids & _ & _ & _ & _ & _ & Hoptin & Hoptout).
  destruct (to_vendor_payload now existing update None events) as (payload & Hok & Hattrs).
  exists payload. eexists. split; [exact Hok|]. split; [exact Hattrs|].
  rewrite Hmerge, Hgroups. cbn [or_empty].
  change (dict_merge ?a []) with a.
  rewrite !billable_find by reflexivity.
  split; [|reflexivity].
  cbn [computed_attributes dict_find String.eqb Ascii.eqb Bool.eqb].
  unfold email_subscribe.
  rewrite (dict_get_find _ _ _ Hoptin), (dict_get_find _ _ _ Hoptout).
  cbn [truthy].
  destruct Hstate as [H | [H | H]];
    rewrite (dict_get_find _ _ _ H), H; reflexivity.
Qed.

(** C7, amended: when [email_subscribe] of the vendor record is one of
    the three states, the local record [from_vendor] returns, given to
    [to_vendor] as the update record, or as the existing record with an
    empty update, yields a payload with that same [email_subscribe]; its
    list of subscription groups is empty whatever the vendor's groups
    were, the newsletters of a local record being a list of slugs and not
    a mapping from slug to state. *)
Theorem round_trip_email_subscribe (now : string) (braze_user_data : dict)
  (subscription_groups : value) (local : dict) (events : value) :
  from_vendor braze_user_data subscription_groups = Ok local ->
  dict_find "email_subscribe" braze_user_data = Some (VStr "opted_in") \/
  dict_find "email_subscribe" braze_user_data = Some (VStr "unsubscribed") \/
  dict_find "email_subscribe" braze_user_data = Some (VStr "subscribed") ->
  forall existing update,
    (existing = None /\ update = local) \/ (existing = Some local /\ update = []) ->
    exists payload attributes,
      to_vendor now existing (Some update) None events = Ok payload /\
      payload_attributes payload = Some attributes /\
      dict_find "email_subscribe" attributes = dict_find "email_subscribe" braze_user_data /\
      dict_find "subscription_groups" attributes = Some (VList []).
Proof.
  intros Hfrom Hstate existing update Hfeed.
  destruct (from_vendor_ok _ _ _ Hfrom) as (groups & ids & _ & _ & Hmerge & _ & Hnews & _).
  apply (round_trip_payload now braze_user_data subscription_groups local); try assumption.
  - destruct Hfeed as [[-> ->] | [-> ->]]; [exact Hmerge | reflexivity].
  - destruct Hfeed as [[-> ->] | [-> ->]]; [|reflexivity].
    unfold update_subscription_groups. now rewrite (dict_get_find _ _ _ Hnews).
Qed.

(** *** The adapter *)

Lemma no_delete_call_refl (log : list http_call) : no_delete_call log log.
Proof. exists []. split; [now rewrite app_nil_r | constructor]. Qed.

Lemma no_delete_call_trans (log1 log2 log3 : list http_call) :
  no_delete_call log1 log2 -> no_delete_call log2 log3 -> no_delete_call log1 log3.
Proof.
  intros (c1 & -> & H1) (c2 & -> & H2). exists (c1 ++ c2)%list.
  split; [now rewrite app_assoc | now apply Forall_app].
Qed.

Lemma never_deletes_ret {A : Type} (a : A) : never_deletes (ret a).
Proof. intros log r log' H. injection H as _ <-. apply no_delete_call_refl. Qed.

Lemma never_deletes_raise {A : Type} (e : exn) : never_deletes (@raise A e).
Proof. intros log r log' H. injection H as _ <-. apply no_delete_call_refl. Qed.

Lemma never_deletes_lift {A : Type} (x : result A) : never_deletes (lift x).
Proof. intros log r log' H. injection H as _ <-. apply no_delete_call_refl. Qed.

Lemma never_deletes_bind {A B : Type} (m : M A) (k : A -> M B) :
  never_deletes m -> (forall a, never_deletes (k a)) -> never_deletes (bind m k).
Proof.
  intros Hm Hk log r log' H. unfold bind in H.
  destruct (m log) as [[a|e] log1] eqn:Em.
  - eapply no_delete_call_trans; [eapply Hm; eassumption | eapply Hk; eassumption].
  - injection H as _ <-. eapply Hm; eassumption.
Qed.

Lemma never_deletes_request (self : BrazeInterface) (endpoint : BrazeEndpoint)
  (data : value) (method : string) (params : value) :
  endpoint <> USERS_DELETE -> never_deletes (_request self endpoint data method params).
Proof.
  intros Hne log r log' H.
  destruct (active self) eqn:Ea.
  - pose proof (_request_active_log self endpoint data method params log Ea) as Hlog.
    rewrite H in Hlog. cbn [snd] in Hlog. subst log'.
    eexists. split; [reflexivity|]. constructor; [exact Hne | constructor].
  - rewrite _request_inactive in H by assumption.
    injection H as _ <-. apply no_delete_call_refl.
Qed.

(** [get] reads: the calls it issues go to the export and the
    subscription-status endpoints only. *)
Lemma get_never_deletes (self : Braze) (email_id token email fxa_id : value) :
  never_deletes (get self email_id token email fxa_id).
Proof.
  unfold get, export_users, get_user_subscriptions.
  apply never_deletes_bind; [apply never_deletes_request; discriminate|]. intros user_response.
  apply never_deletes_bind; [apply never_deletes_lift|]. intros users.
  destruct (truthy users); [|apply never_deletes_ret].
  apply never_deletes_bind; [apply never_deletes_lift|]. intros user_data.
  apply never_deletes_bind; [apply never_deletes_lift|]. intros external_id.
  apply never_deletes_bind; [apply never_deletes_request; discriminate|].
  intros subscription_response.
  apply never_deletes_bind; [apply never_deletes_lift|]. intros subscription_users.
  apply never_deletes_bind; [apply never_deletes_lift|]. intros first.
  apply never_deletes_bind; [apply never_deletes_lift|]. intros subscriptions.
  destruct user_data; try apply never_deletes_raise.
  apply never_deletes_bind; [apply never_deletes_lift|]. intros basket_user_data.
  apply never_deletes_ret.
Qed.

Lemma bind_ok {A B : Type} (m : M A) (k : A -> M B) (log log' : list http_call) (b : B) :
  bind m k log = (Ok b, log') ->
  exists a log1, m log = (Ok a, log1) /\ k a log1 = (Ok b, log').
Proof.
  unfold bind. destruct (m log) as [[a|e] log1]; [|discriminate].
  intros H. now exists a, log1.
Qed.

Lemma lift_ok {A : Type} (x : result A) (log log' : list http_call) (a : A) :
  lift x log = (Ok a, log') -> x = Ok a /\ log' = log.
Proof. unfold lift. intros H. injection H as -> <-. auto. Qed.

(** A [get] that returns did talk to the vendor, and what it returns is
    [None] or a record, which is never empty. *)
Lemma get_ok (self : Braze) (email_id token email fxa_id : value)
  (log log1 : list http_call) (data : value) :
  get self email_id token email fxa_id log = (Ok data, log1) ->
  active (interface self) = true /\ (data = VNone \/ truthy data = true).
Proof.
  unfold get. intros H.
  apply bind_ok in H as (user_response & l1 & Hexport & H).
  apply bind_ok in H as (users & l2 & Husers & H).
  apply lift_ok in Husers as [Husers ->].
  split.
  - destruct (active (interface self)) eqn:Ea; [reflexivity|].
    unfold export_users in Hexport. rewrite _request_inactive in Hexport by assumption.
    injection Hexport as <- _. discriminate Husers.
  - destruct (truthy users).
    + apply bind_ok in H as (user_data & l3 & _ & H).
      apply bind_ok in H as (external_id & l4 & _ & H).
      apply bind_ok in H as (subscription_response & l5 & _ & H).
      apply bind_ok in H as (subscription_users & l6 & _ & H).
      apply bind_ok in H as (first & l7 & _ & H).
      apply bind_ok in H as (subscriptions & l8 & _ & H).
      destruct user_data; try discriminate H.
      apply bind_ok in H as (basket_user_data & l9 & Hfrom & H).
      apply lift_ok in Hfrom as [Hfrom ->].
      injection H as <- _. right.
      now destruct (from_vendor_ok _ _ _ Hfrom) as (_ & _ & _ & _ & _ & Ht & _).
    + injection H as <- _. now left.
Qed.

(** C6: [delete] first runs [get] for the email, and that run issues no
    delete call.  If [get] fails, [delete] fails the same way and stops
    there; if [get] returns [None], [delete] raises
    BrazeUserNotFoundByEmailError and stops there, the log being the one
    [get] left; if [get] returns a record, [delete] issues the one delete
    call for the email and, the vendor answering it, returns the record in
    a list of one. *)
Theorem delete_after_get (self : Braze) (email : value) (log log1 : list http_call)
  (r : result value) :
  get self VNone VNone email VNone log = (r, log1) ->
  no_delete_call log log1 /\
  (forall e, r = Raise e -> delete self email log = (Raise e, log1)) /\
  (r = Ok VNone -> delete self email log = (Raise BrazeUserNotFoundByEmailError, log1)) /\
  (forall data, r = Ok data -> data <> VNone ->
     let call := request_call (interface self) USERS_DELETE (delete_user_data email)
                   "POST" VNone in
     snd (delete self email log) = (log1 ++ [call])%list /\
     forall status_code text body,
       server log1 call = Response status_code text (Some body) ->
       raise_for_status status_code = false ->
       delete self email log = (Ok (VList [data]), (log1 ++ [call])%list)).
Proof.
  intros Hget. split; [|split; [|split]].
  - eapply get_never_deletes; eassumption.
  - intros e ->. unfold delete, bind. now rewrite Hget.
  - intros ->. unfold delete, bind. now rewrite Hget.
  - intros data -> Hdata call.
    destruct (get_ok _ _ _ _ _ _ _ _ Hget) as [Hactive [Hnone | Htruthy]]; [contradiction|].
    assert (Hdelete : delete self email log
                      = bind (delete_user (interface self) email)
                          (fun _ => ret (VList [data])) log1).
    { unfold delete at 1, bind at 1. now rewrite Hget, Htruthy. }
    split.
    + rewrite Hdelete. unfold bind.
      pose proof (_request_active_log (interface self) USERS_DELETE (delete_user_data email)
                    "POST" VNone log1 Hactive) as Hlog.
      fold (delete_user (interface self) email) in Hlog.
      destruct (delete_user (interface self) email log1) as [[body|e] l2];
        cbn [snd] in *; exact Hlog.
    + intros status_code text body Hresponse Hstatus.
      rewrite Hdelete. unfold bind, delete_user, _request.
      rewrite Hactive. cbn [negb]. fold call. now rewrite Hresponse, Hstatus.
Qed.

(** C10, the code on a record without an [email_id]: [data.email] is an
    attribute access on a dict, so [add] ends in an AttributeError before
    any payload is built and no HTTP call is issued, where the claim has
    it pass an email alias with [_update_existing_only] false. *)
Theorem add_without_email_id_raises (self : Braze) (now : string) (data : dict)
  (log : list http_call) :
  truthy (dict_get data "email_id") = false ->
  add self now data log = (Raise AttributeError, log).
Proof. intros H. unfold add, bind. now rewrite H. Qed.

(** X23: for a record with an [email_id], [add] saves the payload of
    [to_vendor] with the caller override applied, [_update_existing_only]
    false, in one call to the track endpoint. *)
Lemma add_with_email_id (self : Braze) (now : string) (data : dict) (log : list http_call) :
  truthy (dict_get data "email_id") = true ->
  active (interface self) = true ->
  exists payload attributes,
    to_vendor now None (Some data) (Some [("_update_existing_only", VBool false)]) VNone
      = Ok payload /\
    payload_attributes payload = Some attributes /\
    dict_find "_update_existing_only" attributes = Some (VBool false) /\
    snd (add self now data log)
      = (log ++ [request_call (interface self) USERS_TRACK payload "POST" VNone])%list.
Proof.
  intros Hid Hactive.
  destruct (to_vendor_payload now None data (Some [("_update_existing_only", VBool false)]) VNone)
    as (payload & Hok & Hattrs).
  exists payload. eexists. split; [exact Hok|]. split; [exact Hattrs|]. split.
  - cbn [or_empty dict_merge fold_left fst snd].
    apply dict_find_set_same.
  - unfold add, bind. rewrite Hid. cbn [negb ret lift]. rewrite Hok.
    pose proof (_request_active_log (interface self) USERS_TRACK payload "POST" VNone log Hactive)
      as Hlog.
    fold (save_user (interface self) payload) in Hlog.
    destruct (save_user (interface self) payload log) as [[body|e] l2]; cbn [snd] in *; exact Hlog.
Qed.

(** The reserved operations fail with NotImplementedError and issue no
    call. *)
Lemma updates_not_implemented (self : Braze) (a b : value) (log : list http_call) :
  update self a b log = (Raise NotImplementedError, log) /\
  update_by_fxa_id self a b log = (Raise NotImplementedError, log) /\
  update_by_token self a b log = (Raise NotImplementedError, log).
Proof. repeat split. Qed.

(** *** More of to_vendor *)

Lemma dict_find_absent (k : string) (d : dict) :
  ~ In k (map fst d) -> dict_find k d = None.
Proof.
  induction d as [|[k' v] r IH]; cbn [map fst In dict_find]; intros H; [reflexivity|].
  destruct (String.eqb_spec k k') as [->|Hne].
  - exfalso. apply H. now left.
  - apply IH. intros Hin. apply H. now right.
Qed.

(** [a | b] looked up: the value of [b] where [b] has the key, else the
    value of [a]. *)
Lemma dict_find_merge (k : string) (b a : dict) :
  distinct_keys b ->
  dict_find k (dict_merge a b)
  = match dict_find k b with Some v => Some v | None => dict_find k a end.
Proof.
  unfold distinct_keys, dict_merge. revert a.
  induction b as [|[k' v'] r IH]; intros a Hb; cbn [fold_left fst snd dict_find map] in *.
  - reflexivity.
  - inversion Hb as [|? ? Hnotin Hr]; subst.
    rewrite IH by assumption.
    destruct (String.eqb_spec k k') as [->|Hne].
    + now rewrite (dict_find_absent _ _ Hnotin), dict_find_set_same.
    + apply String.eqb_neq in Hne. now rewrite dict_find_set_other by assumption.
Qed.

Lemma dict_has_find (k : string) (d : dict) :
  dict_has k d = false -> dict_find k d = None.
Proof. unfold dict_has. now destruct (dict_find k d). Qed.

Lemma billable_names (ex up : dict) (country language : value) (base : dict) :
  dict_has "first_name" base = false -> dict_has "last_name" base = false ->
  let attributes := billable ex up country language base in
  dict_find "first_name" attributes
  = (if py_ne (dict_get up "first_name") (dict_get ex "first_name")
     then Some (dict_get up "first_name") else None) /\
  dict_find "last_name" attributes
  = (if py_ne (dict_get up "last_name") (dict_get ex "last_name")
     then Some (dict_get up "last_name") else None).
Proof.
  intros Hf Hl. apply dict_has_find in Hf. apply dict_has_find in Hl.
  unfold billable.
  destruct (py_ne country _), (py_ne language _), (py_ne (dict_get up "first_name") _),
    (py_ne (dict_get up "last_name") _); cbn zeta;
  repeat first [ rewrite dict_find_set_same
               | rewrite dict_find_set_other by reflexivity ];
  rewrite ?Hf, ?Hl; split; reflexivity.
Qed.

(** X1: the two names are billable and are sent only when they change:
    unless the caller's custom attributes name them, the payload holds
    [first_name] (and likewise [last_name]) exactly when the merged value
    differs from the existing record's, and then it holds the merged
    value. *)
Theorem to_vendor_sends_changed_names (now : string) (existing : option dict)
  (update : dict) (custom_attributes : option dict) (events : value) :
  dict_has "first_name" (or_empty custom_attributes) = false ->
  dict_has "last_name" (or_empty custom_attributes) = false ->
  let merged := dict_merge (or_empty existing) update in
  exists payload attributes,
    to_vendor now existing (Some update) custom_attributes events = Ok payload /\
    payload_attributes payload = Some attributes /\
    dict_find "first_name" attributes
    = (if py_eq (dict_get merged "first_name") (dict_get (or_empty existing) "first_name")
       then None else Some (dict_get merged "first_name")) /\
    dict_find "last_name" attributes
    = (if py_eq (dict_get merged "last_name") (dict_get (or_empty existing) "last_name")
       then None else Some (dict_get merged "last_name")).
Proof.
  intros Hf Hl merged.
  destruct (to_vendor_payload now existing update custom_attributes events)
    as (payload & Hok & Hattrs).
  exists payload. eexists. split; [exact Hok|]. split; [exact Hattrs|].
  rewrite !dict_find_merge_absent by assumption.
  fold merged.
  match goal with
  | |- context [billable ?ex ?up ?c ?l ?base] =>
      destruct (billable_names ex up c l base eq_refl eq_refl) as [H1 H2]
  end.
  rewrite H1, H2. unfold py_ne.
  destruct (py_eq (dict_get merged "first_name") _),
    (py_eq (dict_get merged "last_name") _); split; reflexivity.
Qed.

(** X2: the caller's custom attributes win.  For a custom-attributes
    dict, every key it names has the caller's value in the payload's
    attributes object, and every key it does not name has the value it
    has in the payload built without custom attributes. *)
Theorem to_vendor_custom_attributes_win (now : string) (existing : option dict)
  (update custom : dict) (events : value) :
  distinct_keys custom ->
  exists payload attributes plain plain_attributes,
    to_vendor now existing (Some update) (Some custom) events = Ok payload /\
    payload_attributes payload = Some attributes /\
    to_vendor now existing (Some update) None events = Ok plain /\
    payload_attributes plain = Some plain_attributes /\
    forall key,
      dict_find key attributes
      = match dict_find key custom with
        | Some v => Some v
        | None => dict_find key plain_attributes
        end.
Proof.
  intros Hcustom.
  destruct (to_vendor_payload now existing update (Some custom) events)
    as (payload & Hok & Hattrs).
  destruct (to_vendor_payload now existing update None events)
    as (plain & Hplain & Hplain_attrs).
  exists payload. eexists. exists plain. eexists.
  split; [exact Hok|]. split; [exact Hattrs|].
  split; [exact Hplain|]. split; [exact Hplain_attrs|].
  intros key. cbn [or_empty]. rewrite dict_find_merge by assumption.
  reflexivity.
Qed.

Lemma subscription_groups_of_filter (newsletters : dict) :
  subscription_groups_of newsletters
  = map subscription_group
      (filter (fun item => is_valid_uuid (slug_to_vendor_id (fst item))) newsletters).
Proof.
  induction newsletters as [|[slug is_subscribed] rest IH]; [reflexivity|].
  cbn [subscription_groups_of filter fst].
  destruct (is_valid_uuid (slug_to_vendor_id slug)); cbn [map]; now rewrite IH.
Qed.

(** X3: the subscription groups of a payload.  When the update's
    [newsletters] is a mapping from slug to state, the payload lists, in
    the mapping's order, one group per slug whose vendor id is a valid
    UUID, subscribed or unsubscribed as the state is true or false; the
    slugs without a valid id are left out.  When [newsletters] is missing
    or is anything but a mapping, the list is empty. *)
Theorem to_vendor_subscription_groups (now : string) (existing : option dict)
  (update : dict) (custom_attributes : option dict) (events : value) :
  dict_has "subscription_groups" (or_empty custom_attributes) = false ->
  exists payload attributes,
    to_vendor now existing (Some update) custom_attributes events = Ok payload /\
    payload_attributes payload = Some attributes /\
    dict_find "subscription_groups" attributes
    = Some (VList
        match dict_get update "newsletters" with
        | VDict newsletters =>
            map subscription_group
              (filter (fun item => is_valid_uuid (slug_to_vendor_id (fst item))) newsletters)
        | _ => []
        end).
Proof.
  intros Hcustom.
  destruct (to_vendor_payload now existing update custom_attributes events)
    as (payload & Hok & Hattrs).
  exists payload. eexists. split; [exact Hok|]. split; [exact Hattrs|].
  rewrite dict_find_merge_absent by assumption.
  rewrite billable_find by reflexivity.
  cbn [computed_attributes dict_find String.eqb Ascii.eqb Bool.eqb].
  unfold update_subscription_groups.
  destruct (dict_get update "newsletters"); try reflexivity.
  now rewrite subscription_groups_of_filter.
Qed.

(** X4: the precedence of [email_subscribe] and of the merge behind it.
    An [optin] or [optout] named by the update replaces the existing
    one; the payload then says opted_in when the merged [optin] is true,
    else unsubscribed when the merged [optout] is true, else subscribed. *)
Theorem to_vendor_email_subscribe (now : string) (existing : option dict)
  (update : dict) (custom_attributes : option dict) (events : value) :
  distinct_keys update ->
  dict_has "email_subscribe" (or_empty custom_attributes) = false ->
  let merged_get key :=
    match dict_find key update with
    | Some v => v
    | None => dict_get (or_empty existing) key
    end in
  exists payload attributes,
    to_vendor now existing (Some update) custom_attributes events = Ok payload /\
    payload_attributes payload = Some attributes /\
    dict_find "email_subscribe" attributes
    = Some (VStr (if truthy (merged_get "optin") then "opted_in"
                  else if truthy (merged_get "optout") then "unsubscribed"
                  else "subscribed")).
Proof.
  intros Hupdate Hcustom merged_get.
  destruct (to_vendor_payload now existing update custom_attributes events)
    as (payload & Hok & Hattrs).
  exists payload. eexists. split; [exact Hok|]. split; [exact Hattrs|].
  rewrite dict_find_merge_absent by assumption.
  rewrite billable_find by reflexivity.
  cbn [computed_attributes dict_find String.eqb Ascii.eqb Bool.eqb].
  unfold email_subscribe, dict_get at 1 2, dict_get_default.
  rewrite !dict_find_merge by assumption.
  unfold merged_get, dict_get, dict_get_default.
  destruct (dict_find "optin" update), (dict_find "optout" update); reflexivity.
Qed.

(** X5: the timestamps of a payload.  [update_timestamp] and
    [updated_at] are the time of the call; [created_at] is the merged
    record's [created_date] whenever the record has that key, whatever
    its value, and the time of the call only when the key is missing;
    [has_fxa] says whether the merged [fxa_create_date] is true. *)
Theorem to_vendor_timestamps (now : string) (existing : option dict)
  (update : dict) (custom_attributes : option dict) (events : value) :
  dict_has "update_timestamp" (or_empty custom_attributes) = false ->
  dict_has "user_attributes_v1" (or_empty custom_attributes) = false ->
  let merged := dict_merge (or_empty existing) update in
  exists payload attributes versioned,
    to_vendor now existing (Some update) custom_attributes events = Ok payload /\
    payload_attributes payload = Some attributes /\
    dict_find "update_timestamp" attributes = Some (VStr now) /\
    dict_find "user_attributes_v1" attributes = Some (VList [VDict versioned]) /\
    dict_find "updated_at" versioned = Some (VDict [("$time", VStr now)]) /\
    dict_find "created_at" versioned
    = Some (VDict [("$time", match dict_find "created_date" merged with
                             | Some created => created
                             | None => VStr now
                             end)]) /\
    dict_find "has_fxa" versioned
    = Some (VBool (truthy (dict_get merged "fxa_create_date"))).
Proof.
  intros Hts Hv1 merged.
  destruct (to_vendor_payload now existing update custom_attributes events)
    as (payload & Hok & Hattrs).
  exists payload. eexists. eexists. split; [exact Hok|]. split; [exact Hattrs|].
  split; [|split].
  - rewrite dict_find_merge_absent by assumption.
    now rewrite billable_find by reflexivity.
  - rewrite dict_find_merge_absent by assumption.
    rewrite billable_find by reflexivity. reflexivity.
  - repeat split; reflexivity.
Qed.

(** X6: events are attached verbatim and only when given: the payload
    has the key [events], holding the caller's events, exactly when they
    are a true value; a missing or empty events argument leaves a payload
    with the attributes alone. *)
Theorem to_vendor_events (now : string) (existing : option dict)
  (update : dict) (custom_attributes : option dict) (events : value) :
  exists payload attributes,
    to_vendor now existing (Some update) custom_attributes events = Ok (VDict payload) /\
    payload_attributes (VDict payload) = Some attributes /\
    dict_find "events" payload = (if truthy events then Some events else None) /\
    length payload = (if truthy events then 2%nat else 1%nat).
Proof.
  unfold to_vendor. destruct (truthy events);
    eexists; eexists; repeat split; reflexivity.
Qed.

(** X7: the update wins over the existing record.  The payload's
    [external_id] and [email] are the update's [email_id] and [email]
    where the update names them, and the existing record's otherwise. *)
Theorem to_vendor_update_wins (now : string) (existing : option dict)
  (update : dict) (custom_attributes : option dict) (events : value) :
  distinct_keys update ->
  dict_has "external_id" (or_empty custom_attributes) = false ->
  dict_has "email" (or_empty custom_attributes) = false ->
  let merged_get key :=
    match dict_find key update with
    | Some v => v
    | None => dict_get (or_empty existing) key
    end in
  exists payload attributes,
    to_vendor now existing (Some update) custom_attributes events = Ok payload /\
    payload_attributes payload = Some attributes /\
    dict_find "external_id" attributes = Some (merged_get "email_id") /\
    dict_find "email" attributes = Some (merged_get "email").
Proof.
  intros Hupdate Hid Hemail merged_get.
  destruct (to_vendor_payload now existing update custom_attributes events)
    as (payload & Hok & Hattrs).
  exists payload. eexists. split; [exact Hok|]. split; [exact Hattrs|].
  rewrite !dict_find_merge_absent by assumption.
  rewrite !billable_find by reflexivity.
  cbn [computed_attributes dict_find String.eqb Ascii.eqb Bool.eqb].
  unfold dict_get at 1 2, dict_get_default.
  rewrite !dict_find_merge by assumption.
  unfold merged_get, dict_get, dict_get_default.
  destruct (dict_find "email_id" update), (dict_find "email" update); split; reflexivity.
Qed.

(** *** More of track_user *)

Lemma and_pop_token (user_data : option dict) :
  truthy (dict_get (or_empty user_data) "email_id") = false ->
  truthy (fst (and_pop user_data "email_id")) = false /\
  let token := fst (and_pop (snd (and_pop user_data "email_id")) "basket_token") in
  truthy token = truthy (dict_get (or_empty user_data) "basket_token") /\
  (truthy token = true -> token = dict_get (or_empty user_data) "basket_token").
Proof.
  intros Hid. destruct user_data as [[|kv r]|]; cbn [or_empty] in *.
  - repeat split; first [reflexivity | discriminate].
  - change (and_pop (Some (kv :: r)) "email_id")
      with (dict_get (kv :: r) "email_id", Some (dict_remove "email_id" (kv :: r))).
    cbn [fst snd]. split; [exact Hid|].
    assert (Hrest : dict_find "basket_token" (dict_remove "email_id" (kv :: r))
                    = dict_find "basket_token" (kv :: r))
      by (apply dict_find_remove_other; reflexivity).
    unfold dict_get, dict_get_default. rewrite <- Hrest.
    destruct (dict_remove "email_id" (kv :: r)) as [|kv' r'].
    + split; [reflexivity | discriminate].
    + change (fst (and_pop (Some (kv' :: r')) "basket_token"))
        with (dict_get (kv' :: r') "basket_token").
      split; reflexivity.
  - repeat split; first [reflexivity | discriminate].
Qed.

(** X8: without a true [email_id] in [user_data] (no [user_data] at all
    included) the record is addressed by an email alias: the one
    attributes object holds the email, [_update_existing_only] false and
    the alias of the email, with no [external_id]; a [basket_token] is
    added exactly when [user_data] carries a true one. *)
Theorem track_user_by_alias (now : string) (email event : value) (user_data : option dict) :
  truthy (dict_get (or_empty user_data) "email_id") = false ->
  let token := dict_get (or_empty user_data) "basket_token" in
  dict_find "attributes" (track_user_data now email event user_data)
  = Some (VList [VDict
      ([ ("email", email);
         ("_update_existing_only", VBool false);
         ("user_alias",
          VDict [("alias_name", email); ("alias_label", VStr "email")]) ]
       ++ (if truthy token then [("basket_token", token)] else []))%list]).
Proof.
  intros Hid token.
  destruct (and_pop_token user_data Hid) as (Hfalse & Htruthy & Htoken).
  unfold track_user_data, track_user_attributes.
  destruct (and_pop user_data "email_id") as [email_id rest] eqn:Epop.
  cbn [fst snd] in *.
  destruct (and_pop rest "basket_token") as [basket_token after] eqn:Etoken.
  cbn [fst] in *. rewrite Hfalse. fold token in Htruthy, Htoken.
  destruct (truthy basket_token) eqn:Eb.
  - rewrite <- Htruthy, <- (Htoken eq_refl).
    destruct (truthy event); reflexivity.
  - rewrite <- Htruthy. destruct (truthy event); reflexivity.
Qed.

(** X9: the event of [track_user].  Without an event the request body
    has no [events]; with one it has a single event carrying the name
    and the time of the call, addressed as the attributes are: by
    [external_id] when [user_data] has a true [email_id], by the email
    alias otherwise. *)
Theorem track_user_event (now : string) (email event : value) (user_data : option dict) :
  let email_id := dict_get (or_empty user_data) "email_id" in
  dict_find "events" (track_user_data now email event user_data)
  = if truthy event then
      Some (VList [VDict
        [ ("name", event);
          ("time", VStr now);
          (if truthy email_id then ("external_id", email_id)
           else ("user_alias",
                 VDict [("alias_name", email); ("alias_label", VStr "email")])) ]])
    else None.
Proof.
  intros email_id. unfold track_user_data.
  assert (Hid : truthy (fst (and_pop user_data "email_id")) = truthy email_id /\
                (truthy email_id = true -> fst (and_pop user_data "email_id") = email_id)).
  { unfold email_id. destruct user_data as [[|kv r]|]; cbn; auto. split; auto; discriminate. }
  destruct Hid as [Ht Hv].
  destruct (truthy event); [|reflexivity].
  rewrite Ht. destruct (truthy email_id) eqn:E; [|reflexivity].
  now rewrite (Hv eq_refl).
Qed.

(** *** The calls of the adapter *)

Lemma issues_only_weaken {A : Type} (P Q : http_call -> Prop) (m : M A) :
  (forall call, P call -> Q call) -> issues_only P m -> issues_only Q m.
Proof.
  intros HPQ Hm log r log' H. destruct (Hm log r log' H) as (calls & -> & Hcalls).
  exists calls. split; [reflexivity|]. eapply Forall_impl; eassumption.
Qed.

Lemma issues_only_ret {A : Type} (P : http_call -> Prop) (a : A) : issues_only P (ret a).
Proof. intros log r log' H. injection H as _ <-. exists []. now rewrite app_nil_r. Qed.

Lemma issues_only_raise {A : Type} (P : http_call -> Prop) (e : exn) :
  issues_only P (@raise A e).
Proof. intros log r log' H. injection H as _ <-. exists []. now rewrite app_nil_r. Qed.

Lemma issues_only_lift {A : Type} (P : http_call -> Prop) (x : result A) :
  issues_only P (lift x).
Proof. intros log r log' H. injection H as _ <-. exists []. now rewrite app_nil_r. Qed.

Lemma issues_only_bind {A B : Type} (P : http_call -> Prop) (m : M A) (k : A -> M B) :
  issues_only P m -> (forall a, issues_only P (k a)) -> issues_only P (bind m k).
Proof.
  intros Hm Hk log r log' H. unfold bind in H.
  destruct (m log) as [[a|e] log1] eqn:Em.
  - destruct (Hm _ _ _ Em) as (c1 & -> & H1).
    destruct (Hk a _ _ _ H) as (c2 & -> & H2).
    exists (c1 ++ c2)%list. split; [now rewrite app_assoc | now apply Forall_app].
  - injection H as _ <-. eapply Hm; eassumption.
Qed.

Lemma issues_only_request (P : http_call -> Prop) (self : BrazeInterface)
  (endpoint : BrazeEndpoint) (data : value) (method : string) (params : value) :
  P (request_call self endpoint data method params) ->
  issues_only P (_request self endpoint data method params).
Proof.
  intros HP log r log' H.
  destruct (active self) eqn:Ea.
  - pose proof (_request_active_log self endpoint data method params log Ea) as Hlog.
    rewrite H in Hlog. cbn [snd] in Hlog. subst log'.
    eexists. split; [reflexivity|]. constructor; [exact HP | constructor].
  - rewrite _request_inactive in H by assumption.
    injection H as _ <-. exists []. now rewrite app_nil_r.
Qed.

Lemma sent_to_request (endpoints : list BrazeEndpoint) (self : BrazeInterface)
  (endpoint : BrazeEndpoint) (data params : value) :
  In endpoint endpoints ->
  sent_to endpoints self
    (request_call self endpoint data
       match endpoint with SUBSCRIPTION_USER_STATUS => "GET" | _ => "POST" end params).
Proof.
  intros Hin. unfold sent_to, sent_by.
  destruct endpoint; repeat split; assumption.
Qed.

Lemma get_issues (self : Braze) (email_id token email fxa_id : value) :
  issues_only (sent_to [USERS_EXPORT_IDS; SUBSCRIPTION_USER_STATUS] (interface self))
    (get self email_id token email fxa_id).
Proof.
  unfold get, export_users, get_user_subscriptions.
  apply issues_only_bind.
  { apply issues_only_request.
    apply (sent_to_request _ _ USERS_EXPORT_IDS). cbn; auto. }
  intros user_response.
  apply issues_only_bind; [apply issues_only_lift|]. intros users.
  destruct (truthy users); [|apply issues_only_ret].
  apply issues_only_bind; [apply issues_only_lift|]. intros user_data.
  apply issues_only_bind; [apply issues_only_lift|]. intros external_id.
  apply issues_only_bind.
  { apply issues_only_request.
    apply (sent_to_request _ _ SUBSCRIPTION_USER_STATUS). cbn; auto. }
  intros subscription_response.
  apply issues_only_bind; [apply issues_only_lift|]. intros subscription_users.
  apply issues_only_bind; [apply issues_only_lift|]. intros first.
  apply issues_only_bind; [apply issues_only_lift|]. intros subscriptions.
  destruct user_data; try apply issues_only_raise.
  apply issues_only_bind; [apply issues_only_lift|]. intros basket_user_data.
  apply issues_only_ret.
Qed.

(** X10: what the adapter sends.  Every HTTP call [get], [add] and
    [delete] issue, whatever their outcome, goes to the endpoint's path
    under the client's root URL with the bearer token and the JSON
    content type, by POST (the subscription status by GET); [get] talks
    to the export and the subscription-status endpoints only, [add] to
    the track endpoint only, and [delete] to export, status and delete. *)
Theorem adapter_calls (self : Braze) (now : string) (email_id token email fxa_id : value)
  (data : dict) :
  issues_only (sent_to [USERS_EXPORT_IDS; SUBSCRIPTION_USER_STATUS] (interface self))
    (get self email_id token email fxa_id) /\
  issues_only (sent_to [USERS_TRACK] (interface self)) (add self now data) /\
  issues_only
    (sent_to [USERS_EXPORT_IDS; SUBSCRIPTION_USER_STATUS; USERS_DELETE] (interface self))
    (delete self email).
Proof.
  split; [apply get_issues | split].
  - unfold add, save_user.
    apply issues_only_bind.
    { destruct (negb _); [apply issues_only_raise | apply issues_only_ret]. }
    intros custom. apply issues_only_bind; [apply issues_only_lift|]. intros payload.
    apply issues_only_bind; [|intros; apply issues_only_ret].
    apply issues_only_request. apply (sent_to_request _ _ USERS_TRACK). cbn; auto.
  - unfold delete, delete_user.
    apply issues_only_bind.
    { eapply issues_only_weaken; [|apply get_issues].
      intros call (Hsent & Hin & Hmethod).
      split; [exact Hsent|]. split; [|exact Hmethod].
      cbn [In] in *. tauto. }
    intros record. destruct (negb _); [apply issues_only_raise|].
    apply issues_only_bind; [|intros; apply issues_only_ret].
    apply issues_only_request. apply (sent_to_request _ _ USERS_DELETE). cbn; auto.
Qed.

(** *** More of get *)

Lemma _request_ok (self : BrazeInterface) (endpoint : BrazeEndpoint)
  (data : value) (method : string) (params : value) (log : list http_call)
  (status_code : Z) (text : string) (body : value) :
  active self = true ->
  server log (request_call self endpoint data method params)
    = Response status_code text (Some body) ->
  raise_for_status status_code = false ->
  _request self endpoint data method params log
  = (Ok body, (log ++ [request_call self endpoint data method params])%list).
Proof.
  intros Hactive Hresponse Hstatus. unfold _request.
  now rewrite Hactive, Hresponse, Hstatus.
Qed.

(** X11: no match is a normal outcome.  When the export answers with a
    [users] entry that is empty, [get] returns [None] after that one
    call: the subscription status is not asked for. *)
Theorem get_not_found (self : Braze) (email_id token email fxa_id : value)
  (log : list http_call) (status_code : Z) (text : string) (response : dict)
  (users : value) :
  let export :=
    request_call (interface self) USERS_EXPORT_IDS
      (VDict (export_users_data email fields_to_export token)) "POST" VNone in
  active (interface self) = true ->
  server log export = Response status_code text (Some (VDict response)) ->
  raise_for_status status_code = false ->
  dict_find "users" response = Some users ->
  truthy users = false ->
  get self email_id token email fxa_id log = (Ok VNone, (log ++ [export])%list).
Proof.
  intros export Hactive Hresponse Hstatus Husers Hempty. subst export.
  unfold get, bind, export_users.
  rewrite (_request_ok _ _ _ _ _ _ _ _ _ Hactive Hresponse Hstatus).
  unfold lift, py_index, dict_index. rewrite Husers, Hempty. reflexivity.
Qed.

(** X12: [get] is [from_vendor] of what the two calls fetch.  When the
    export answers with a list of users and the status call, made for the
    first user's [external_id] and the email, answers too, [get] returns
    what [from_vendor] makes of the first user and the subscription
    groups of the first entry of the status answer (no groups when the
    answer names none), after exactly those two calls. *)
Theorem get_found (self : Braze) (email_id token email fxa_id : value)
  (log : list http_call) (status1 status2 : Z) (text1 text2 : string)
  (response1 response2 user first : dict) (others : list value) (external_id : value) :
  let export :=
    request_call (interface self) USERS_EXPORT_IDS
      (VDict (export_users_data email fields_to_export token)) "POST" VNone in
  let status :=
    request_call (interface self) SUBSCRIPTION_USER_STATUS VNone "GET"
      (VDict [("external_id", external_id); ("email", email)]) in
  active (interface self) = true ->
  server log export = Response status1 text1 (Some (VDict response1)) ->
  raise_for_status status1 = false ->
  dict_find "users" response1 = Some (VList (VDict user :: others)) ->
  dict_find "external_id" user = Some external_id ->
  server (log ++ [export])%list status = Response status2 text2 (Some (VDict response2)) ->
  raise_for_status status2 = false ->
  py_index0 (dict_get_default response2 "users" (VList [VDict []])) = Ok (VDict first) ->
  get self email_id token email fxa_id log
  = (match from_vendor user (dict_get_default first "subscription_groups" (VList [])) with
     | Ok local => Ok (VDict local)
     | Raise e => Raise e
     end,
     (log ++ [export; status])%list).
Proof.
  intros export status Hactive Hresponse1 Hstatus1 Husers Hid Hresponse2 Hstatus2 Hfirst.
  subst export status.
  unfold get, bind, export_users.
  rewrite (_request_ok _ _ _ _ _ _ _ _ _ Hactive Hresponse1 Hstatus1).
  unfold lift at 1, py_index at 1, dict_index at 1. rewrite Husers.
  cbn [truthy lift py_index0 py_index]. unfold dict_index at 1. rewrite Hid.
  unfold get_user_subscriptions.
  rewrite (_request_ok _ _ _ _ _ _ _ _ _ Hactive Hresponse2 Hstatus2).
  cbn [py_get_default]. rewrite Hfirst. cbn [py_get_default].
  rewrite <- app_assoc. cbn [app].
  destruct (from_vendor user _); reflexivity.
Qed.

(** X13: a failing export ends [get].  When the export is answered with
    a status from 400 to 599, [get] raises the error classified from that
    status and the response text, after that one call. *)
Theorem get_export_error (self : Braze) (email_id token email fxa_id : value)
  (log : list http_call) (status_code : Z) (text : string) (json : option value) :
  let export :=
    request_call (interface self) USERS_EXPORT_IDS
      (VDict (export_users_data email fields_to_export token)) "POST" VNone in
  active (interface self) = true ->
  server log export = Response status_code text json ->
  400 <= status_code <= 599 ->
  get self email_id token email fxa_id log
  = (Raise (http_error status_code text), (log ++ [export])%list).
Proof.
  intros export Hactive Hresponse Hrange. subst export.
  unfold get, bind, export_users, _request.
  rewrite Hactive. cbn [negb]. rewrite Hresponse.
  unfold raise_for_status.
  destruct (Z.leb_spec 400 status_code); [|lia].
  destruct (Z.ltb_spec status_code 600); [reflexivity | lia].
Qed.

(** X14: the adapter on a client without an API key.  The client's
    operations return [None], and [get] subscripts that [None]: [get] and
    [delete] raise TypeError with no call issued, while [add] of a record
    with an [email_id] returns without a call. *)
Theorem adapter_on_inactive_client (self : Braze) (now : string)
  (email_id token email fxa_id : value) (data : dict) (log : list http_call) :
  active (interface self) = false ->
  get self email_id token email fxa_id log = (Raise TypeError, log) /\
  delete self email log = (Raise TypeError, log) /\
  (truthy (dict_get data "email_id") = true -> add self now data log = (Ok VNone, log)).
Proof.
  intros Hoff.
  assert (Hget : forall a b c d, get self a b c d log = (Raise TypeError, log)).
  { intros. unfold get, bind, export_users. now rewrite _request_inactive by assumption. }
  split; [apply Hget | split].
  - unfold delete, bind. now rewrite Hget.
  - intros Hid. unfold add, bind. rewrite Hid. cbn [negb ret lift].
    destruct (to_vendor_payload now None data (Some [("_update_existing_only", VBool false)])
                VNone) as (payload & Hok & _).
    rewrite Hok. unfold save_user. now rewrite _request_inactive by assumption.
Qed.

(** *** More of from_vendor *)

Lemma py_eq_str (v : value) (s : string) : py_eq v (VStr s) = true <-> v = VStr s.
Proof.
  destruct v; cbn [py_eq]; split; intros H; try discriminate H.
  - apply String.eqb_eq in H. now subst.
  - injection H as ->. apply String.eqb_refl.
Qed.

Lemma dict_get_str (d : dict) (k s : string) :
  dict_get d k = VStr s <-> dict_find k d = Some (VStr s).
Proof.
  unfold dict_get, dict_get_default.
  destruct (dict_find k d); split; intros H; try discriminate H; congruence.
Qed.

(** The fields of a record [from_vendor] returns. *)
Lemma from_vendor_fields (braze_user_data : dict) (subscription_groups : value)
  (local : dict) :
  from_vendor braze_user_data subscription_groups = Ok local ->
  exists user_attributes,
    user_attributes_v1 braze_user_data = Ok (VDict user_attributes) /\
    map fst local
    = [ "email"; "email_id"; "id"; "first_name"; "last_name"; "country"; "lang";
        "newsletters"; "created_date"; "last_modified_date"; "optin"; "optout";
        "token"; "fxa_service"; "fxa_lang"; "fxa_primary_email"; "fxa_create_date" ] /\
    dict_find "email" local = dict_find "email" braze_user_data /\
    dict_find "email_id" local = dict_find "external_id" braze_user_data /\
    dict_find "id" local = dict_find "braze_id" braze_user_data /\
    dict_find "first_name" local = Some (dict_get braze_user_data "first_name") /\
    dict_find "last_name" local = Some (dict_get braze_user_data "last_name") /\
    dict_find "country" local
    = Some (if truthy (dict_get braze_user_data "country")
            then dict_get braze_user_data "country"
            else dict_get user_attributes "mailing_country") /\
    dict_find "lang" local
    = Some (if truthy (dict_get braze_user_data "language")
            then dict_get braze_user_data "language"
            else dict_get_default user_attributes "email_lang" (VStr "en")) /\
    dict_find "created_date" local = Some (dict_get user_attributes "created_at") /\
    dict_find "last_modified_date" local = Some (dict_get user_attributes "updated_at") /\
    dict_find "token" local = Some (dict_get user_attributes "basket_token") /\
    dict_find "fxa_service" local = Some (dict_get user_attributes "fxa_first_service") /\
    dict_find "fxa_lang" local = Some (dict_get user_attributes "fxa_lang") /\
    dict_find "fxa_primary_email" local
    = Some (dict_get user_attributes "fxa_primary_email") /\
    dict_find "fxa_create_date" local
    = Some (if truthy (dict_get user_attributes "has_fxa")
            then dict_get user_attributes "fxa_created_at" else VNone).
Proof.
  unfold from_vendor. intros H. invert_rbind H. injection H as <-.
  match goal with
  | Hc : py_get ?a "created_at" = Ok _ |- _ => destruct a; try discriminate Hc
  end.
  exists d. split; [reflexivity|].
  cbn [map fst dict_find String.eqb Ascii.eqb Bool.eqb].
  unfold py_get, py_get_default, dict_index in *.
  repeat match goal with
         | Hk : match dict_find ?k ?r with Some _ => _ | None => _ end = Ok _ |- _ =>
             destruct (dict_find k r) eqn:?; [injection Hk as <- | discriminate Hk]
         | Hk : (if ?c then _ else _) = Ok _ |- _ =>
             destruct c eqn:?; injection Hk as <-
         | Hk : Ok _ = Ok _ |- _ => injection Hk as <-
         end.
  all: unfold dict_get, dict_get_default in *;
    repeat match goal with
           | Hf : dict_find ?k ?r = _ |- _ => rewrite Hf in *; clear Hf
           | Ht : truthy _ = _ |- _ => rewrite Ht in *; clear Ht
           end;
    repeat split; reflexivity.
Qed.

(** X15: the fallbacks of [from_vendor].  The local [country] is the
    vendor's top-level [country] when that is a true value, and the
    nested [mailing_country] otherwise (a missing or empty top-level
    country falls back); the local [lang] is the top-level [language]
    when true, else the nested [email_lang], else "en". *)
Theorem from_vendor_fallbacks (braze_user_data : dict) (subscription_groups : value)
  (local user_attributes : dict) :
  from_vendor braze_user_data subscription_groups = Ok local ->
  user_attributes_v1 braze_user_data = Ok (VDict user_attributes) ->
  dict_find "country" local
  = Some (if truthy (dict_get braze_user_data "country")
          then dict_get braze_user_data "country"
          else dict_get user_attributes "mailing_country") /\
  dict_find "lang" local
  = Some (if truthy (dict_get braze_user_data "language")
          then dict_get braze_user_data "language"
          else match dict_find "email_lang" user_attributes with
               | Some lang => lang
               | None => VStr "en"
               end).
Proof.
  intros Hfrom Hua.
  destruct (from_vendor_fields _ _ _ Hfrom) as (ua & Hua' & _ & _ & _ & _ & _ & _ & Hc & Hl & _).
  rewrite Hua in Hua'. injection Hua' as <-.
  split; assumption.
Qed.

(** X16: [optin] and [optout] of a local record.  Both are booleans;
    [optin] is true exactly when the vendor's [email_subscribe] is
    "opted_in" and [optout] exactly when it is "unsubscribed", so the two
    are never both true. *)
Theorem from_vendor_optin_optout (braze_user_data : dict) (subscription_groups : value)
  (local : dict) :
  from_vendor braze_user_data subscription_groups = Ok local ->
  exists optin optout,
    dict_find "optin" local = Some (VBool optin) /\
    dict_find "optout" local = Some (VBool optout) /\
    (optin = true <-> dict_find "email_subscribe" braze_user_data = Some (VStr "opted_in")) /\
    (optout = true <->
     dict_find "email_subscribe" braze_user_data = Some (VStr "unsubscribed")) /\
    optin && optout = false.
Proof.
  intros Hfrom.
  destruct (from_vendor_ok _ _ _ Hfrom) as (_ & _ & _ & _ & _ & _ & _ & Hoptin & Hoptout).
  eexists. eexists. split; [exact Hoptin|]. split; [exact Hoptout|].
  split; [|split].
  - rewrite py_eq_str. apply dict_get_str.
  - rewrite py_eq_str. apply dict_get_str.
  - destruct (py_eq (dict_get braze_user_data "email_subscribe") (VStr "opted_in")) eqn:E;
      [|reflexivity].
    apply py_eq_str in E. now rewrite E.
Qed.

(** X17: what a local record takes from the versioned attributes.  The
    token, the two dates and the account fields are the nested
    [basket_token], [created_at], [updated_at], [fxa_first_service],
    [fxa_lang] and [fxa_primary_email]; [fxa_create_date] is the nested
    [fxa_created_at] only when [has_fxa] is true, and [None] otherwise
    even if a date is stored. *)
Theorem from_vendor_versioned_attributes (braze_user_data : dict)
  (subscription_groups : value) (local user_attributes : dict) :
  from_vendor braze_user_data subscription_groups = Ok local ->
  user_attributes_v1 braze_user_data = Ok (VDict user_attributes) ->
  dict_find "token" local = Some (dict_get user_attributes "basket_token") /\
  dict_find "created_date" local = Some (dict_get user_attributes "created_at") /\
  dict_find "last_modified_date" local = Some (dict_get user_attributes "updated_at") /\
  dict_find "fxa_service" local = Some (dict_get user_attributes "fxa_first_service") /\
  dict_find "fxa_lang" local = Some (dict_get user_attributes "fxa_lang") /\
  dict_find "fxa_primary_email" local
  = Some (dict_get user_attributes "fxa_primary_email") /\
  dict_find "fxa_create_date" local
  = Some (if truthy (dict_get user_attributes "has_fxa")
          then dict_get user_attributes "fxa_created_at" else VNone).
Proof.
  intros Hfrom Hua.
  destruct (from_vendor_fields _ _ _ Hfrom)
    as (ua & Hua' & _ & _ & _ & _ & _ & _ & _ & _ & H1 & H2 & H3 & H4 & H5 & H6 & H7).
  rewrite Hua in Hua'. injection Hua' as <-.
  repeat split; assumption.
Qed.

(** X18: a vendor record without one of the keys [from_vendor]
    subscripts.  Once the versioned attributes and the subscription
    groups have been read, a record without [email] raises KeyError
    "email", one with [email] but no [external_id] KeyError "external_id",
    and one with both but no [braze_id] KeyError "braze_id". *)
Theorem from_vendor_missing_key (braze_user_data : dict) (subscription_groups : value)
  (user_attributes : value) (groups ids : list value) :
  user_attributes_v1 braze_user_data = Ok user_attributes ->
  py_iter subscription_groups = Ok groups ->
  subscribed_ids groups = Ok ids ->
  (dict_has "email" braze_user_data = false ->
   from_vendor braze_user_data subscription_groups = Raise (KeyError "email")) /\
  (dict_has "email" braze_user_data = true ->
   dict_has "external_id" braze_user_data = false ->
   from_vendor braze_user_data subscription_groups = Raise (KeyError "external_id")) /\
  (dict_has "email" braze_user_data = true ->
   dict_has "external_id" braze_user_data = true ->
   dict_has "braze_id" braze_user_data = false ->
   from_vendor braze_user_data subscription_groups = Raise (KeyError "braze_id")).
Proof.
  intros Hua Hiter Hids. unfold from_vendor, dict_has, dict_index.
  rewrite Hua, Hiter. cbn [rbind]. rewrite Hids. cbn [rbind].
  destruct (dict_find "email" braze_user_data),
    (dict_find "external_id" braze_user_data),
    (dict_find "braze_id" braze_user_data);
    repeat split; intros; try reflexivity; discriminate.
Qed.

Lemma from_vendor_readable (braze_user_data : dict) (subscription_groups : list dict) :
  readable_record braze_user_data ->
  Forall is_group subscription_groups ->
  exists local,
    from_vendor braze_user_data (VList (map VDict subscription_groups)) = Ok local.
Proof.
  intros (Hemail & Hext & Hbraze & user_attributes & Hua) Hgroups.
  unfold from_vendor. rewrite Hua. cbn [rbind py_iter].
  rewrite (subscribed_ids_groups _ Hgroups). cbn [rbind].
  unfold dict_index. unfold dict_has in Hemail, Hext, Hbraze.
  destruct (dict_find "email" braze_user_data); [|discriminate Hemail].
  destruct (dict_find "external_id" braze_user_data); [|discriminate Hext].
  destruct (dict_find "braze_id" braze_user_data); [|discriminate Hbraze].
  cbn [rbind].
  destruct (truthy (dict_get braze_user_data "country"));
    destruct (truthy (dict_get braze_user_data "language"));
    cbn [rbind py_get py_get_default];
    destruct (truthy (dict_get_default user_attributes "has_fxa" VNone));
    cbn [rbind py_get py_get_default];
    eexists; reflexivity.
Qed.

(** X19: a vendor record with no custom attributes at all.  If it has
    the three subscripted keys, [from_vendor] returns a record for every
    list of subscription groups: the language defaults to "en" unless the
    top level gives one, the country is the top-level one or [None], and
    the token, the dates and the account fields are [None]. *)
Theorem from_vendor_bare_record (braze_user_data : dict) (subscription_groups : list dict) :
  dict_has "custom_attributes" braze_user_data = false ->
  dict_has "email" braze_user_data = true ->
  dict_has "external_id" braze_user_data = true ->
  dict_has "braze_id" braze_user_data = true ->
  Forall is_group subscription_groups ->
  exists local,
    from_vendor braze_user_data (VList (map VDict subscription_groups)) = Ok local /\
    dict_find "lang" local
    = Some (if truthy (dict_get braze_user_data "language")
            then dict_get braze_user_data "language" else VStr "en") /\
    dict_find "country" local
    = Some (if truthy (dict_get braze_user_data "country")
            then dict_get braze_user_data "country" else VNone) /\
    dict_find "token" local = Some VNone /\
    dict_find "created_date" local = Some VNone /\
    dict_find "last_modified_date" local = Some VNone /\
    dict_find "fxa_create_date" local = Some VNone.
Proof.
  intros Hcustom Hemail Hext Hbraze Hgroups.
  assert (Hua : user_attributes_v1 braze_user_data = Ok (VDict [])).
  { unfold user_attributes_v1, dict_get_default.
    now rewrite (dict_has_find _ _ Hcustom). }
  destruct (from_vendor_readable braze_user_data subscription_groups) as [local Hfrom];
    [repeat split; try assumption; now exists [] | assumption |].
  exists local. split; [exact Hfrom|].
  destruct (from_vendor_fields _ _ _ Hfrom)
    as (ua & Hua' & _ & _ & _ & _ & _ & _ & Hc & Hl & H1 & H2 & H3 & _ & _ & _ & H7).
  rewrite Hua in Hua'. injection Hua' as <-.
  repeat split; assumption.
Qed.

(** X20: malformed custom attributes stop [from_vendor] at once.  An
    empty [user_attributes_v1] list raises IndexError and a
    [custom_attributes] that is [None] raises AttributeError, whatever
    the rest of the record and the subscription groups are. *)
Theorem from_vendor_malformed_attributes (braze_user_data : dict)
  (subscription_groups : value) :
  (forall custom,
     dict_find "custom_attributes" braze_user_data = Some (VDict custom) ->
     dict_find "user_attributes_v1" custom = Some (VList []) ->
     from_vendor braze_user_data subscription_groups = Raise IndexError) /\
  (dict_find "custom_attributes" braze_user_data = Some VNone ->
   from_vendor braze_user_data subscription_groups = Raise AttributeError).
Proof.
  unfold from_vendor, user_attributes_v1, dict_get_default. split.
  - intros custom Hcustom Hv1. rewrite Hcustom. cbn [py_get_default].
    unfold dict_get_default. now rewrite Hv1.
  - intros Hcustom. now rewrite Hcustom.
Qed.

(** X21: a vendor delete that fails.  When [get] has found the record
    but the delete call is answered with a status from 400 to 599,
    [delete] raises the error classified from that status and text after
    the delete call: the record is not returned. *)
Theorem delete_vendor_error (self : Braze) (email : value) (log log1 : list http_call)
  (data : value) (status_code : Z) (text : string) (json : option value) :
  let call :=
    request_call (interface self) USERS_DELETE (delete_user_data email) "POST" VNone in
  get self VNone VNone email VNone log = (Ok data, log1) ->
  data <> VNone ->
  server log1 call = Response status_code text json ->
  400 <= status_code <= 599 ->
  delete self email log = (Raise (http_error status_code text), (log1 ++ [call])%list).
Proof.
  intros call Hget Hdata Hresponse Hrange. subst call.
  destruct (get_ok _ _ _ _ _ _ _ _ Hget) as [Hactive [Hnone | Htruthy]]; [contradiction|].
  unfold delete, bind. rewrite Hget, Htruthy. cbn [negb].
  unfold delete_user, _request. rewrite Hactive. cbn [negb]. rewrite Hresponse.
  unfold raise_for_status.
  destruct (Z.leb_spec 400 status_code); [|lia].
  destruct (Z.ltb_spec status_code 600); [reflexivity | lia].
Qed.

End Backend.

(** ** The functions at concrete inputs *)

(** [from_vendor] on the records of the test suite gives the local
    record the suite expects. *)
Example from_vendor_mock :
  from_vendor vendor_id_to_slug_model mock_braze_user_data
    (VList (map VDict mock_braze_user_subscription_groups))
  = Ok mock_basket_user_data.
Proof. reflexivity. Qed.

(** The existing record of the test suite with an update that changes
    the first name and the country but not the language: the payload
    carries [language] all the same, the code having looked for the
    existing language under the key [language] where the local record
    keeps it under [lang]. *)
Example to_vendor_resends_unchanged_language :
  exists payload attributes,
    to_vendor process_country_model process_lang_model slug_to_vendor_id_model
      is_valid_uuid_model frozen_now (Some mock_basket_user_data)
      (Some [ ("first_name", VStr "Foo"); ("country", VStr "CA") ]) None VNone = Ok payload /\
    payload_attributes payload = Some attributes /\
    dict_find "country" attributes = Some (VStr "ca") /\
    dict_find "first_name" attributes = Some (VStr "Foo") /\
    dict_has "last_name" attributes = false /\
    dict_find "language" attributes = Some (VStr "en").
Proof. eexists. eexists. repeat split; reflexivity. Qed.

(** Witness of C1 with the lower-casing helper. *)
Lemma to_vendor_resends_unchanged_country_witness :
  exists payload attributes,
    to_vendor process_country_model process_lang_model slug_to_vendor_id_model
      is_valid_uuid_model frozen_now (Some [("country", VStr "US")])
      (Some [("country", VStr "US")]) None VNone = Ok payload /\
    payload_attributes payload = Some attributes /\
    dict_find "country" attributes = Some (VStr "us").
Proof.
  apply (to_vendor_resends_unchanged_country process_country_model process_lang_model
           slug_to_vendor_id_model is_valid_uuid_model frozen_now VNone).
  reflexivity.
Defined.

(** C3 as stated fails at the spec's own example: with
    [user_data = {"email_id": "X"}] the attributes object does hold a
    [basket_token] key, though [user_data] carries no token. *)
Lemma track_user_email_id_claim_fails :
  ~ track_user_email_id_claim (VStr "a@b.com") [("email_id", VStr "X")].
Proof.
  intros H. destruct (H eq_refl frozen_now VNone) as (attributes & Ha & _ & _ & _ & Htoken).
  vm_compute in Ha. injection Ha as <-.
  specialize (Htoken eq_refl). discriminate Htoken.
Qed.

(** The payload of the spec's example in full. *)
Example track_user_email_id_only :
  track_user_data frozen_now (VStr "a@b.com") VNone (Some [("email_id", VStr "X")])
  = [ ("attributes",
       VList [ VDict [ ("email", VStr "a@b.com");
                       ("external_id", VStr "X");
                       ("basket_token", VDict []) ] ]) ].
Proof. reflexivity. Qed.

(** Witness of C3: the spec's example, whose [user_data] holds an
    [email_id] and nothing else, and the call of the test suite, which
    holds a token too. *)
Lemma track_user_with_email_id_witness :
  dict_find "attributes"
    (track_user_data frozen_now (VStr "a@b.com") VNone (Some [("email_id", VStr "X")]))
  = Some (VList [VDict [ ("email", VStr "a@b.com");
                         ("external_id", VStr "X");
                         ("basket_token", VDict []) ]]) /\
  dict_find "attributes"
    (track_user_data frozen_now (VStr "test@test.com") (VStr "test_event")
       (Some [("basket_token", VStr "abc123"); ("email_id", VStr "fed654")]))
  = Some (VList [VDict [ ("email", VStr "test@test.com");
                         ("external_id", VStr "fed654");
                         ("basket_token", VStr "abc123") ]]).
Proof.
  split.
  - destruct (track_user_with_email_id urljoin_model (server_always TransportFailure)
                braze_client frozen_now (VStr "a@b.com") VNone
                [("email_id", VStr "X")] [] eq_refl)
      as (basket_token & Hattributes & _ & Hleft & _).
    rewrite (Hleft eq_refl) in Hattributes. exact Hattributes.
  - destruct (track_user_with_email_id urljoin_model (server_always TransportFailure)
                braze_client frozen_now (VStr "test@test.com") (VStr "test_event")
                [("basket_token", VStr "abc123"); ("email_id", VStr "fed654")] [] eq_refl)
      as (basket_token & Hattributes & Hcarried & _).
    rewrite (Hcarried eq_refl) in Hattributes. exact Hattributes.
Defined.

(** With further keys in [user_data] and no token, the [basket_token]
    sent is [None]. *)
Example track_user_email_id_other_keys :
  track_user_data frozen_now (VStr "a@b.com") VNone
    (Some [("email_id", VStr "X"); ("first_name", VStr "Test")])
  = [ ("attributes",
       VList [ VDict [ ("email", VStr "a@b.com");
                       ("external_id", VStr "X");
                       ("basket_token", VNone) ] ]) ].
Proof. reflexivity. Qed.

(** Witness of C4: the client made from "http://test.com" and an empty
    key. *)
Lemma inactive_client_is_noop_witness :
  exists self,
    BrazeInterface_init urlparse_model "http://test.com" (Some "")
      = Ok (self, ["Braze API key is not configured"]) /\
    active self = false /\
    track_user urljoin_model (server_always TransportFailure) self frozen_now
      (VStr "test@test.com") VNone None [] = (Ok VNone, []).
Proof.
  destruct (inactive_client_is_noop urlparse_model urljoin_model (server_always TransportFailure)
              "http://test.com" (Some "") {| scheme := "http"; netloc := "test.com" |})
    as (self & Hinit & Hactive & Hops).
  - reflexivity.
  - discriminate.
  - discriminate.
  - left. reflexivity.
  - exists self. split; [exact Hinit|]. split; [exact Hactive|].
    exact (proj1 (Hops frozen_now (VStr "test@test.com") VNone None VNone VNone VNone VNone [])).
Defined.

(** Counterexample to C5 as stated: a 304 response is not 2xx, and
    [_request] raises nothing for it; it returns the decoded body. *)
Lemma non_2xx_raises_claim_fails :
  ~ non_2xx_raises_claim urljoin_model
      (server_always (Response 304 "{}" (Some (VDict [])))).
Proof.
  intros H.
  destruct (H braze_client USERS_TRACK (VDict []) "POST" VNone [] 304 "{}" (Some (VDict []))
              eq_refl eq_refl (or_intror eq_refl)) as [e He].
  vm_compute in He. discriminate He.
Qed.

(** Witness of C5 amended: a 404 raises BrazeNotFoundError and a 418 the
    generic BrazeClientError, each with the response text. *)
Lemma request_classifies_http_errors_witness :
  fst (_request urljoin_model (server_always (Response 404 "no such endpoint" None))
         braze_client USERS_TRACK (VDict []) "POST" VNone [])
    = Raise (BrazeNotFoundError "no such endpoint") /\
  fst (_request urljoin_model (server_always (Response 418 "teapot" None))
         braze_client USERS_TRACK (VDict []) "POST" VNone [])
    = Raise (BrazeClientError "teapot").
Proof.
  split.
  - destruct (proj1 (request_classifies_http_errors urljoin_model
                       (server_always (Response 404 "no such endpoint" None))
                       braze_client USERS_TRACK (VDict []) "POST" VNone []
                       404 "no such endpoint" None eq_refl eq_refl) ltac:(lia))
      as (e & Hrequest & _ & _ & _ & H404 & _).
    rewrite Hrequest. cbn [fst]. now rewrite (H404 eq_refl).
  - destruct (proj1 (request_classifies_http_errors urljoin_model
                       (server_always (Response 418 "teapot" None))
                       braze_client USERS_TRACK (VDict []) "POST" VNone []
                       418 "teapot" None eq_refl eq_refl) ltac:(lia))
      as (e & Hrequest & _ & _ & _ & _ & _ & _ & Hother).
    rewrite Hrequest. cbn [fst].
    now rewrite (Hother ltac:(lia) ltac:(lia) ltac:(lia) ltac:(lia) ltac:(lia) ltac:(lia)).
Defined.

(** Witness of C6: the vendor knows no user for the email, so [delete]
    raises after the one export call. *)
Lemma delete_after_get_witness :
  delete urljoin_model
    (server_scripted (Response 200 "" (Some (VDict [("users", VList [])])))
       TransportFailure TransportFailure)
    vendor_id_to_slug_model {| interface := braze_client |} (VStr "missing@x.com") []
  = (Raise BrazeUserNotFoundByEmailError,
     [ request_call urljoin_model braze_client USERS_EXPORT_IDS
         (VDict (export_users_data (VStr "missing@x.com") fields_to_export VNone))
         "POST" VNone ]).
Proof.
  apply (delete_after_get urljoin_model
           (server_scripted (Response 200 "" (Some (VDict [("users", VList [])])))
              TransportFailure TransportFailure)
           vendor_id_to_slug_model {| interface := braze_client |} (VStr "missing@x.com") []
           _ (Ok VNone) eq_refl).
  reflexivity.
Defined.

(** A user the vendor knows: [delete] makes the export, the status and
    the delete call, and returns the record in a list of one. *)
Example delete_known_user :
  let server :=
    server_scripted
      (Response 200 "" (Some (VDict [("users", VList [VDict mock_braze_user_data])])))
      (Response 200 ""
         (Some (VDict [("users",
                        VList [VDict [("subscription_groups",
                                       VList (map VDict mock_braze_user_subscription_groups))]])])))
      (Response 200 "" (Some (VDict []))) in
  let run :=
    delete urljoin_model server vendor_id_to_slug_model {| interface := braze_client |}
      (VStr "test@example.com") [] in
  fst run = Ok (VList [VDict mock_basket_user_data]) /\
  map call_url (snd run)
    = [ "http://test.com/users/export/ids";
        "http://test.com/subscription/user/status";
        "http://test.com/users/delete" ].
Proof. split; reflexivity. Qed.

(** Counterexample to C7 as stated, on the records of the test suite,
    whose two group ids both have a slug: fed as the existing record the
    local record makes [to_vendor] fail, and fed as the update record it
    gives a payload with no subscription group, so the subscribed group
    is not in it. *)
Lemma round_trip_claim_fails :
  ~ round_trip_claim process_country_model process_lang_model slug_to_vendor_id_model
      vendor_id_to_slug_model is_valid_uuid_model frozen_now false
      mock_braze_user_data mock_braze_user_subscription_groups /\
  ~ round_trip_claim process_country_model process_lang_model slug_to_vendor_id_model
      vendor_id_to_slug_model is_valid_uuid_model frozen_now true
      mock_braze_user_data mock_braze_user_subscription_groups.
Proof.
  assert (Hslugs : Forall (fun group => vendor_id_to_slug_model (dict_get group "id") <> VNone)
                     mock_braze_user_subscription_groups)
    by (repeat constructor; discriminate).
  split; intros H; destruct (H Hslugs)
    as (local & payload & attributes & groups & Hfrom & Hto & Hattrs & _ & Hgroups & Hin).
  - discriminate Hto.
  - vm_compute in Hfrom. injection Hfrom as <-.
    vm_compute in Hto. injection Hto as <-.
    vm_compute in Hattrs. injection Hattrs as <-.
    vm_compute in Hgroups. injection Hgroups as <-.
    exact (Hin _ (or_introl eq_refl) eq_refl).
Qed.

(** Witness of C7 amended, on the records of the test suite. *)
Lemma round_trip_email_subscribe_witness :
  exists payload attributes,
    to_vendor process_country_model process_lang_model slug_to_vendor_id_model
      is_valid_uuid_model frozen_now None (Some mock_basket_user_data) None VNone = Ok payload /\
    payload_attributes payload = Some attributes /\
    dict_find "email_subscribe" attributes = Some (VStr "opted_in") /\
    dict_find "subscription_groups" attributes = Some (VList []).
Proof.
  apply (round_trip_email_subscribe process_country_model process_lang_model
           slug_to_vendor_id_model vendor_id_to_slug_model is_valid_uuid_model frozen_now
           mock_braze_user_data (VList (map VDict mock_braze_user_subscription_groups))
           mock_basket_user_data VNone).
  - reflexivity.
  - left. reflexivity.
  - left. split; reflexivity.
Defined.

(** The reference parser on a root URL [scheme://host]: the scheme is
    read up to the colon and lower-cased, the host is the network
    location. *)
Lemma scheme_char_not_colon (c : ascii) :
  is_scheme_char c = true -> Ascii.eqb c ":" = false.
Proof.
  destruct c as [[] [] [] [] [] [] [] []]; intros H; try reflexivity; discriminate H.
Qed.

Lemma scheme_char_safe (c : ascii) :
  is_scheme_char c = true ->
  ((nat_of_ascii c =? 9) || (nat_of_ascii c =? 10) || (nat_of_ascii c =? 13))%nat = false.
Proof.
  destruct c as [[] [] [] [] [] [] [] []]; intros H; try reflexivity; discriminate H.
Qed.

Lemma alpha_not_stripped (c : ascii) :
  is_alpha c = true -> (nat_of_ascii c <=? 32)%nat = false.
Proof.
  destruct c as [[] [] [] [] [] [] [] []]; intros H; try reflexivity; discriminate H.
Qed.

Lemma alpha_scheme_char (c : ascii) :
  is_alpha c = true -> is_scheme_char c = true.
Proof. intros H. unfold is_scheme_char. now rewrite H. Qed.

Lemma host_char_facts (c : ascii) :
  is_host_char c = true ->
  ((nat_of_ascii c =? 9) || (nat_of_ascii c =? 10) || (nat_of_ascii c =? 13))%nat = false /\
  (Ascii.eqb c "/" || Ascii.eqb c "?" || Ascii.eqb c "#")%bool = false /\
  Ascii.eqb c "[" = false /\ Ascii.eqb c "]" = false.
Proof.
  destruct c as [[] [] [] [] [] [] [] []]; intros H; try discriminate H;
    repeat split; reflexivity.
Qed.

Lemma remove_unsafe_bytes_scheme (pre rest : string) :
  forall_chars is_scheme_char pre = true ->
  remove_unsafe_bytes (pre ++ rest) = pre ++ remove_unsafe_bytes rest.
Proof.
  induction pre as [|c pre IH]; cbn [append remove_unsafe_bytes forall_chars]; intros H.
  - reflexivity.
  - apply andb_prop in H as [Hc Hpre].
    now rewrite (scheme_char_safe c Hc), (IH Hpre).
Qed.

Lemma remove_unsafe_bytes_host (host : string) :
  forall_chars is_host_char host = true -> remove_unsafe_bytes host = host.
Proof.
  induction host as [|c host IH]; cbn [remove_unsafe_bytes forall_chars]; intros H.
  - reflexivity.
  - apply andb_prop in H as [Hc Hhost].
    destruct (host_char_facts c Hc) as (Hsafe & _).
    now rewrite Hsafe, (IH Hhost).
Qed.

Lemma partition_colon_scheme (pre post : string) :
  forall_chars is_scheme_char pre = true ->
  partition ":" (pre ++ String ":" post) = (pre, true, post).
Proof.
  induction pre as [|c pre IH]; cbn [append partition forall_chars]; intros H.
  - reflexivity.
  - apply andb_prop in H as [Hc Hpre].
    now rewrite (scheme_char_not_colon c Hc), (IH Hpre).
Qed.

Lemma until_delimiter_host (host : string) :
  forall_chars is_host_char host = true -> until_delimiter host = host.
Proof.
  induction host as [|c host IH]; cbn [until_delimiter forall_chars]; intros H.
  - reflexivity.
  - apply andb_prop in H as [Hc Hhost].
    destruct (host_char_facts c Hc) as (_ & Hdelimiter & _).
    now rewrite Hdelimiter, (IH Hhost).
Qed.

Lemma host_no_bracket (host : string) :
  forall_chars is_host_char host = true ->
  contains "[" host = false /\ contains "]" host = false.
Proof.
  induction host as [|c host IH]; cbn [contains forall_chars]; intros H.
  - split; reflexivity.
  - apply andb_prop in H as [Hc Hhost].
    destruct (host_char_facts c Hc) as (_ & _ & Hopen & Hclose).
    destruct (IH Hhost) as [IHopen IHclose].
    now rewrite Hopen, Hclose, IHopen, IHclose.
Qed.

Lemma urlparse_model_root (c : ascii) (pre host : string) :
  is_alpha c = true ->
  forall_chars is_scheme_char pre = true ->
  forall_chars is_host_char host = true ->
  urlparse_model (String c pre ++ "://" ++ host)
  = Ok {| scheme := lower (String c pre); netloc := host |}.
Proof.
  intros Hc Hpre Hhost. unfold urlparse_model.
  assert (Hscheme : forall_chars is_scheme_char (String c pre) = true).
  { cbn [forall_chars]. now rewrite (alpha_scheme_char c Hc), Hpre. }
  assert (Hstrip : lstrip_c0_control_or_space (String c pre ++ "://" ++ host)
                   = (String c pre ++ String ":" ("//" ++ host))%string).
  { cbn [append lstrip_c0_control_or_space]. now rewrite (alpha_not_stripped c Hc). }
  rewrite Hstrip, (remove_unsafe_bytes_scheme _ _ Hscheme).
  change (remove_unsafe_bytes (String ":" ("//" ++ host)))
    with (String ":" ("//" ++ remove_unsafe_bytes host))%string.
  rewrite (remove_unsafe_bytes_host host Hhost).
  unfold split_scheme. rewrite (partition_colon_scheme _ _ Hscheme), Hc, Hpre.
  cbn [andb]. unfold split_netloc.
  cbn [append Ascii.eqb Bool.eqb andb]. rewrite (until_delimiter_host host Hhost).
  destruct (host_no_bracket host Hhost) as [Hopen Hclose].
  rewrite Hopen, Hclose. reflexivity.
Qed.

(** With that parser the constructor accepts every root URL whose scheme
    starts with a letter and whose host is a non-empty text of printable
    characters without delimiter or bracket. *)
Lemma init_accepts_root_url (c : ascii) (pre host : string) (api_key : option string) :
  is_alpha c = true ->
  forall_chars is_scheme_char pre = true ->
  forall_chars is_host_char host = true ->
  host <> "" ->
  exists self warnings,
    BrazeInterface_init urlparse_model (String c pre ++ "://" ++ host) api_key
      = Ok (self, warnings) /\
    api_url self = (lower (String c pre) ++ "://" ++ host)%string.
Proof.
  intros Hc Hpre Hhost Hne.
  rewrite (BrazeInterface_init_ok urlparse_model _ _
             {| scheme := lower (String c pre); netloc := host |}).
  - eexists. eexists. split; reflexivity.
  - now apply urlparse_model_root.
  - discriminate.
  - exact Hne.
Qed.

(** The parser raises nothing but [ValueError]. *)
Lemma check_bracketed_host_raises (hostname : string) (e : exn) :
  check_bracketed_host hostname = Raise e -> exists message, e = ValueError message.
Proof.
  unfold check_bracketed_host.
  repeat match goal with
         | |- context [if ?b then _ else _] => destruct b
         end; intros H; try discriminate H; injection H as <-; eexists; reflexivity.
Qed.

Lemma check_bracketed_netloc_raises (netloc : string) (e : exn) :
  check_bracketed_netloc netloc = Raise e -> exists message, e = ValueError message.
Proof.
  unfold check_bracketed_netloc.
  destruct (partition "[" (after_last "@" netloc)) as [[before_bracket have_open_br] bracketed].
  destruct have_open_br.
  - destruct (negb (before_bracket =? "")%string).
    + intros H. injection H as <-. eexists. reflexivity.
    + destruct (partition "]" bracketed) as [[hostname found] port].
      destruct port as [|c port]; [apply check_bracketed_host_raises|].
      destruct (Ascii.eqb c ":"); [apply check_bracketed_host_raises|].
      intros H. injection H as <-. eexists. reflexivity.
  - destruct (partition ":" (after_last "@" netloc)) as [[hostname found] port].
    apply check_bracketed_host_raises.
Qed.

Lemma urlparse_model_raises (url : string) (e : exn) :
  urlparse_model url = Raise e -> exists message, e = ValueError message.
Proof.
  unfold urlparse_model.
  destruct (split_scheme _) as [scheme rest].
  destruct (xorb _ _).
  - intros H. injection H as <-. eexists. reflexivity.
  - destruct (contains "[" (split_netloc rest)); [|discriminate].
    destruct (check_bracketed_netloc (split_netloc rest)) as [[]|e'] eqn:Hcheck;
      [discriminate|].
    intros H. injection H as <-. exact (check_bracketed_netloc_raises _ _ Hcheck).
Qed.

Lemma contains_lstrip (c : ascii) (url : string) :
  contains c url = false -> contains c (lstrip_c0_control_or_space url) = false.
Proof.
  induction url as [|a url IH]; cbn [lstrip_c0_control_or_space]; [easy|].
  destruct (nat_of_ascii a <=? 32)%nat; [|easy].
  cbn [contains]. intros H. apply orb_false_elim in H as [_ H]. exact (IH H).
Qed.

Lemma contains_remove_unsafe_bytes (c : ascii) (url : string) :
  contains c url = false -> contains c (remove_unsafe_bytes url) = false.
Proof.
  induction url as [|a url IH]; cbn [remove_unsafe_bytes contains]; [easy|].
  intros H. apply orb_false_elim in H as [Ha H].
  destruct (_ || _ || _)%bool; [exact (IH H)|].
  cbn [contains]. now rewrite Ha, (IH H).
Qed.

Lemma partition_absent (c : ascii) (s : string) :
  contains c s = false -> partition c s = (s, false, EmptyString).
Proof.
  induction s as [|a s IH]; cbn [contains partition]; [easy|].
  intros H. apply orb_false_elim in H as [Ha H]. now rewrite Ha, (IH H).
Qed.

(** A text with no colon in it has no scheme: the constructor refuses
    it, with the parser's [ValueError] or its own. *)
Lemma init_refuses_without_colon (base_url : string) (api_key : option string) :
  contains ":" base_url = false ->
  exists message,
    BrazeInterface_init urlparse_model base_url api_key = Raise (ValueError message).
Proof.
  intros H. unfold BrazeInterface_init.
  destruct (urlparse_model base_url) as [urlbits|e] eqn:Hparse.
  - exists "Invalid base_url". cbn [rbind].
    assert (Hscheme : scheme urlbits = "").
    { revert Hparse. unfold urlparse_model, split_scheme.
      rewrite (partition_absent ":" _
                 (contains_remove_unsafe_bytes _ _ (contains_lstrip _ _ H))).
      destruct (remove_unsafe_bytes (lstrip_c0_control_or_space base_url)) as [|a r];
        cbn iota beta;
        match goal with
        | |- context [rbind ?check _] => destruct check as [[]|e']
        end; cbn [rbind]; intros Hok; try discriminate Hok;
        injection Hok as <-; reflexivity. }
    now rewrite Hscheme.
  - destruct (urlparse_model_raises _ _ Hparse) as [message ->].
    exists message. reflexivity.
Qed.

(** Witness of C8: the three base URLs of the test suite, and one that
    the parser refuses. *)
Lemma init_checks_base_url_witness :
  (exists self warnings,
     BrazeInterface_init urlparse_model "http://test.com" (Some "test_api_key")
       = Ok (self, warnings) /\
     api_url self = "http://test.com") /\
  BrazeInterface_init urlparse_model "test.com" (Some "test_api_key")
    = Raise (ValueError "Invalid base_url") /\
  BrazeInterface_init urlparse_model "" (Some "test_api_key")
    = Raise (ValueError "Invalid base_url") /\
  BrazeInterface_init urlparse_model "http://[::1" (Some "test_api_key")
    = Raise (ValueError "Invalid IPv6 URL").
Proof.
  split; [|split; [|split]].
  - apply (proj1 (init_checks_base_url urlparse_model "http://test.com" (Some "test_api_key"))
             {| scheme := "http"; netloc := "test.com" |}).
    + reflexivity.
    + split; discriminate.
  - apply (proj1 (proj2 (proj2 (init_checks_base_url urlparse_model "test.com"
                                  (Some "test_api_key"))))
             {| scheme := ""; netloc := "" |}).
    + reflexivity.
    + left. reflexivity.
  - apply (proj1 (proj2 (proj2 (init_checks_base_url urlparse_model ""
                                  (Some "test_api_key"))))
             {| scheme := ""; netloc := "" |}).
    + reflexivity.
    + left. reflexivity.
  - apply (proj2 (proj2 (proj2 (init_checks_base_url urlparse_model "http://[::1"
                                  (Some "test_api_key"))))).
    reflexivity.
Defined.

(** C8 as stated fails at "http://:8080": the base URL has a scheme and
    a port but no host, and the constructor returns a client. *)
Lemma base_url_claim_fails : ~ base_url_claim urlparse_model.
Proof.
  intros H.
  destruct (H "http://:8080" (Some "test_api_key") {| scheme := "http"; netloc := ":8080" |}
              eq_refl) as [_ Hrefused].
  destruct (Hrefused (or_intror eq_refl)) as [e He].
  discriminate He.
Qed.

(** The clients made from base URLs without a host: a port alone, and
    user information alone. *)
Example init_accepts_port_without_host :
  hostname {| scheme := "http"; netloc := ":8080" |} = None /\
  BrazeInterface_init urlparse_model "http://:8080" (Some "test_api_key")
  = Ok ({| api_url := "http://:8080"; api_key := Some "test_api_key"; active := true |}, []).
Proof. split; reflexivity. Qed.

Example init_accepts_userinfo_without_host :
  hostname {| scheme := "http"; netloc := "user:pw@" |} = None /\
  BrazeInterface_init urlparse_model "http://user:pw@" (Some "test_api_key")
  = Ok ({| api_url := "http://user:pw@"; api_key := Some "test_api_key"; active := true |}, []).
Proof. split; reflexivity. Qed.

(** The parser strips a leading space, as the library does. *)
Example init_strips_leading_space :
  BrazeInterface_init urlparse_model " http://test.com" (Some "test_api_key")
  = Ok ({| api_url := "http://test.com"; api_key := Some "test_api_key"; active := true |}, []).
Proof. reflexivity. Qed.

(** The registry's lookup yields a slug of the table or nothing. *)
Lemma vendor_id_to_slug_model_slug (id : value) :
  vendor_id_to_slug_model id = VNone \/ truthy (vendor_id_to_slug_model id) = true.
Proof.
  destruct id as [| | |s| |]; try (left; reflexivity).
  unfold vendor_id_to_slug_model, newsletters_model. cbn [find fst snd].
  destruct (String.eqb "234c9b4a-1785-4cd5-b839-5dbc134982eb" s); [right; reflexivity|].
  destruct (String.eqb "78fe6671-9f94-48bd-aaf3-7e873536c3e6" s); [right; reflexivity|].
  left; reflexivity.
Qed.

(** Witness of C9, on the records of the test suite: of the two groups
    the subscribed one is kept. *)
Lemma from_vendor_newsletters_witness :
  exists local,
    from_vendor vendor_id_to_slug_model mock_braze_user_data
      (VList (map VDict mock_braze_user_subscription_groups)) = Ok local /\
    dict_find "newsletters" local = Some (VList [VStr "foo-news"]).
Proof.
  apply (from_vendor_newsletters vendor_id_to_slug_model mock_braze_user_data
           mock_braze_user_subscription_groups vendor_id_to_slug_model_slug).
  - repeat split; try reflexivity. eexists. reflexivity.
  - repeat constructor.
Defined.

(** Witness of C10: a new user without an [email_id]. *)
Lemma add_without_email_id_raises_witness :
  add urljoin_model (server_always (Response 200 "{}" (Some (VDict []))))
    process_country_model process_lang_model slug_to_vendor_id_model is_valid_uuid_model
    {| interface := braze_client |} frozen_now
    [ ("email", VStr "test@example.com"); ("newsletters", VDict [("foo-news", VBool true)]) ] []
  = (Raise AttributeError, []).
Proof.
  apply (add_without_email_id_raises urljoin_model
           (server_always (Response 200 "{}" (Some (VDict []))))
           process_country_model process_lang_model slug_to_vendor_id_model is_valid_uuid_model
           {| interface := braze_client |} frozen_now
           [ ("email", VStr "test@example.com");
             ("newsletters", VDict [("foo-news", VBool true)]) ] []).
  reflexivity.
Defined.

(** ** More of the functions at concrete inputs *)

Ltac distinct_strings :=
  unfold distinct_keys; cbn [map fst];
  repeat (constructor; [cbn [In]; intuition discriminate|]); constructor.

(** Witness of X1: the first name changes, the last name does not. *)
Lemma to_vendor_sends_changed_names_witness :
  exists payload attributes,
    to_vendor process_country_model process_lang_model slug_to_vendor_id_model
      is_valid_uuid_model frozen_now (Some mock_basket_user_data)
      (Some [("first_name", VStr "Foo"); ("last_name", VStr "User")]) None VNone
      = Ok payload /\
    payload_attributes payload = Some attributes /\
    dict_find "first_name" attributes = Some (VStr "Foo") /\
    dict_find "last_name" attributes = None.
Proof.
  exact (to_vendor_sends_changed_names process_country_model process_lang_model
           slug_to_vendor_id_model is_valid_uuid_model frozen_now
           (Some mock_basket_user_data)
           [("first_name", VStr "Foo"); ("last_name", VStr "User")] None VNone
           eq_refl eq_refl).
Defined.

(** Witness of X2: the override [Braze.add] passes. *)
Lemma to_vendor_custom_attributes_win_witness :
  exists payload attributes,
    to_vendor process_country_model process_lang_model slug_to_vendor_id_model
      is_valid_uuid_model frozen_now None (Some mock_basket_user_data)
      (Some [("_update_existing_only", VBool false)]) VNone = Ok payload /\
    payload_attributes payload = Some attributes /\
    dict_find "_update_existing_only" attributes = Some (VBool false) /\
    dict_find "email" attributes = Some (VStr "test@example.com").
Proof.
  destruct (to_vendor_custom_attributes_win process_country_model process_lang_model
              slug_to_vendor_id_model is_valid_uuid_model frozen_now None
              mock_basket_user_data [("_update_existing_only", VBool false)] VNone)
    as (payload & attributes & plain & plain_attributes & Hok & Hattrs & Hplain & Hpa & Hkey).
  - distinct_strings.
  - exists payload, attributes. split; [exact Hok|]. split; [exact Hattrs|].
    rewrite !Hkey. split; [reflexivity|].
    vm_compute in Hplain. injection Hplain as <-.
    vm_compute in Hpa. injection Hpa as <-. reflexivity.
Defined.

(** Witness of X3: two known newsletters and one the registry does not
    know. *)
Lemma to_vendor_subscription_groups_witness :
  exists payload attributes,
    to_vendor process_country_model process_lang_model slug_to_vendor_id_model
      is_valid_uuid_model frozen_now (Some mock_basket_user_data)
      (Some [("newsletters",
              VDict [ ("bar-news", VBool true); ("no-such-news", VBool true);
                      ("foo-news", VBool false) ])]) None VNone = Ok payload /\
    payload_attributes payload = Some attributes /\
    dict_find "subscription_groups" attributes
    = Some (VList
        [ VDict [ ("subscription_group_id", VStr "78fe6671-9f94-48bd-aaf3-7e873536c3e6");
                  ("subscription_state", VStr "subscribed") ];
          VDict [ ("subscription_group_id", VStr "234c9b4a-1785-4cd5-b839-5dbc134982eb");
                  ("subscription_state", VStr "unsubscribed") ] ]).
Proof.
  exact (to_vendor_subscription_groups process_country_model process_lang_model
           slug_to_vendor_id_model is_valid_uuid_model frozen_now
           (Some mock_basket_user_data)
           [("newsletters",
             VDict [ ("bar-news", VBool true); ("no-such-news", VBool true);
                     ("foo-news", VBool false) ])] None VNone eq_refl).
Defined.

(** Witness of X4: an opted-in user who opts out. *)
Lemma to_vendor_email_subscribe_witness :
  exists payload attributes,
    to_vendor process_country_model process_lang_model slug_to_vendor_id_model
      is_valid_uuid_model frozen_now (Some mock_basket_user_data)
      (Some [("optin", VBool false); ("optout", VBool true)]) None VNone = Ok payload /\
    payload_attributes payload = Some attributes /\
    dict_find "email_subscribe" attributes = Some (VStr "unsubscribed").
Proof.
  apply (to_vendor_email_subscribe process_country_model process_lang_model
           slug_to_vendor_id_model is_valid_uuid_model frozen_now
           (Some mock_basket_user_data)
           [("optin", VBool false); ("optout", VBool true)] None VNone).
  - distinct_strings.
  - reflexivity.
Defined.

(** Witness of X5: the existing record keeps its creation date. *)
Lemma to_vendor_timestamps_witness :
  exists payload attributes versioned,
    to_vendor process_country_model process_lang_model slug_to_vendor_id_model
      is_valid_uuid_model frozen_now (Some mock_basket_user_data) (Some []) None VNone
      = Ok payload /\
    payload_attributes payload = Some attributes /\
    dict_find "update_timestamp" attributes = Some (VStr frozen_now) /\
    dict_find "user_attributes_v1" attributes = Some (VList [VDict versioned]) /\
    dict_find "updated_at" versioned = Some (VDict [("$time", VStr frozen_now)]) /\
    dict_find "created_at" versioned = Some (VDict [("$time", VStr "2022-01-01")]) /\
    dict_find "has_fxa" versioned = Some (VBool true).
Proof.
  exact (to_vendor_timestamps process_country_model process_lang_model
           slug_to_vendor_id_model is_valid_uuid_model frozen_now
           (Some mock_basket_user_data) [] None VNone eq_refl eq_refl).
Defined.

(** Witness of X7: a change of email keeps the external id. *)
Lemma to_vendor_update_wins_witness :
  exists payload attributes,
    to_vendor process_country_model process_lang_model slug_to_vendor_id_model
      is_valid_uuid_model frozen_now (Some mock_basket_user_data)
      (Some [("email", VStr "new@example.com")]) None VNone = Ok payload /\
    payload_attributes payload = Some attributes /\
    dict_find "external_id" attributes = Some (VStr "123") /\
    dict_find "email" attributes = Some (VStr "new@example.com").
Proof.
  apply (to_vendor_update_wins process_country_model process_lang_model
           slug_to_vendor_id_model is_valid_uuid_model frozen_now
           (Some mock_basket_user_data) [("email", VStr "new@example.com")] None VNone).
  - distinct_strings.
  - reflexivity.
  - reflexivity.
Defined.

(** Witness of X8: the call of the test suite with a token and no
    [email_id]. *)
Lemma track_user_by_alias_witness :
  dict_find "attributes"
    (track_user_data frozen_now (VStr "test@test.com") (VStr "test_event")
       (Some [("basket_token", VStr "abc123")]))
  = Some (VList [VDict
      [ ("email", VStr "test@test.com");
        ("_update_existing_only", VBool false);
        ("user_alias",
         VDict [("alias_name", VStr "test@test.com"); ("alias_label", VStr "email")]);
        ("basket_token", VStr "abc123") ]]).
Proof.
  exact (track_user_by_alias frozen_now (VStr "test@test.com") (VStr "test_event")
           (Some [("basket_token", VStr "abc123")]) eq_refl).
Defined.

(** Witness of X11: the vendor knows no user for the email. *)
Lemma get_not_found_witness :
  get urljoin_model
    (server_scripted (Response 200 "" (Some (VDict [("users", VList [])])))
       TransportFailure TransportFailure)
    vendor_id_to_slug_model {| interface := braze_client |}
    VNone VNone (VStr "missing@x.com") VNone []
  = (Ok VNone,
     [ request_call urljoin_model braze_client USERS_EXPORT_IDS
         (VDict (export_users_data (VStr "missing@x.com") fields_to_export VNone))
         "POST" VNone ]).
Proof.
  exact (get_not_found urljoin_model
           (server_scripted (Response 200 "" (Some (VDict [("users", VList [])])))
              TransportFailure TransportFailure)
           vendor_id_to_slug_model {| interface := braze_client |}
           VNone VNone (VStr "missing@x.com") VNone [] 200 "" [("users", VList [])]
           (VList []) eq_refl eq_refl eq_refl eq_refl eq_refl).
Defined.

(** Witness of X12: the user and the groups of the test suite. *)
Lemma get_found_witness :
  fst (get urljoin_model
         (server_scripted
            (Response 200 "" (Some (VDict [("users", VList [VDict mock_braze_user_data])])))
            (Response 200 ""
               (Some (VDict [("users",
                              VList [VDict [("subscription_groups",
                                             VList (map VDict
                                                      mock_braze_user_subscription_groups))]])])))
            TransportFailure)
         vendor_id_to_slug_model {| interface := braze_client |}
         VNone VNone (VStr "test@example.com") VNone [])
  = Ok (VDict mock_basket_user_data).
Proof.
  rewrite (get_found urljoin_model
             (server_scripted
                (Response 200 "" (Some (VDict [("users", VList [VDict mock_braze_user_data])])))
                (Response 200 ""
                   (Some (VDict [("users",
                                  VList [VDict [("subscription_groups",
                                                 VList (map VDict
                                                          mock_braze_user_subscription_groups))]])])))
                TransportFailure)
             vendor_id_to_slug_model {| interface := braze_client |}
             VNone VNone (VStr "test@example.com") VNone [] 200 200 "" ""
             [("users", VList [VDict mock_braze_user_data])]
             [("users",
               VList [VDict [("subscription_groups",
                              VList (map VDict mock_braze_user_subscription_groups))]])]
             mock_braze_user_data
             [("subscription_groups", VList (map VDict mock_braze_user_subscription_groups))]
             [] (VStr "123") eq_refl eq_refl eq_refl eq_refl eq_refl eq_refl eq_refl eq_refl).
  reflexivity.
Defined.

(** Witness of X13: the export is rate limited. *)
Lemma get_export_error_witness :
  fst (get urljoin_model (server_always (Response 429 "slow down" None))
         vendor_id_to_slug_model {| interface := braze_client |}
         VNone VNone (VStr "test@example.com") VNone [])
  = Raise (BrazeRateLimitError "slow down").
Proof.
  rewrite (get_export_error urljoin_model (server_always (Response 429 "slow down" None))
             vendor_id_to_slug_model {| interface := braze_client |}
             VNone VNone (VStr "test@example.com") VNone [] 429 "slow down" None
             eq_refl eq_refl ltac:(lia)).
  reflexivity.
Defined.

(** Witness of X14: the client of the test suite without its key. *)
Lemma adapter_on_inactive_client_witness :
  delete urljoin_model (server_always TransportFailure) vendor_id_to_slug_model
    {| interface := {| api_url := "http://test.com"; api_key := Some ""; active := false |} |}
    (VStr "test@example.com") []
  = (Raise TypeError, []).
Proof.
  exact (proj1 (proj2
    (adapter_on_inactive_client urljoin_model (server_always TransportFailure)
       process_country_model process_lang_model slug_to_vendor_id_model
       vendor_id_to_slug_model is_valid_uuid_model
       {| interface :=
            {| api_url := "http://test.com"; api_key := Some ""; active := false |} |}
       frozen_now VNone VNone (VStr "test@example.com") VNone [] [] eq_refl))).
Defined.

(** Witness of X15: an empty top-level country and no top-level
    language. *)
Lemma from_vendor_fallbacks_witness :
  exists local,
    from_vendor vendor_id_to_slug_model
      [ ("email", VStr "test@example.com"); ("external_id", VStr "123");
        ("braze_id", VStr "456"); ("country", VStr "");
        ("custom_attributes",
         VDict [("user_attributes_v1",
                 VList [VDict [("mailing_country", VStr "ca"); ("email_lang", VStr "fr")]])]) ]
      (VList []) = Ok local /\
    dict_find "country" local = Some (VStr "ca") /\
    dict_find "lang" local = Some (VStr "fr").
Proof.
  eexists. split; [reflexivity|].
  apply (from_vendor_fallbacks vendor_id_to_slug_model
           [ ("email", VStr "test@example.com"); ("external_id", VStr "123");
             ("braze_id", VStr "456"); ("country", VStr "");
             ("custom_attributes",
              VDict [("user_attributes_v1",
                      VList [VDict [("mailing_country", VStr "ca");
                                    ("email_lang", VStr "fr")]])]) ]
           (VList []) _
           [("mailing_country", VStr "ca"); ("email_lang", VStr "fr")]);
    reflexivity.
Defined.

(** Witness of X16: the opted-in user of the test suite. *)
Lemma from_vendor_optin_optout_witness :
  exists optin optout,
    dict_find "optin" mock_basket_user_data = Some (VBool optin) /\
    dict_find "optout" mock_basket_user_data = Some (VBool optout) /\
    (optin = true <->
     dict_find "email_subscribe" mock_braze_user_data = Some (VStr "opted_in")) /\
    (optout = true <->
     dict_find "email_subscribe" mock_braze_user_data = Some (VStr "unsubscribed")) /\
    optin && optout = false.
Proof.
  exact (from_vendor_optin_optout vendor_id_to_slug_model mock_braze_user_data
           (VList (map VDict mock_braze_user_subscription_groups))
           mock_basket_user_data eq_refl).
Defined.

(** Witness of X17: a stored account date without the [has_fxa] flag. *)
Lemma from_vendor_versioned_attributes_witness :
  exists local,
    from_vendor vendor_id_to_slug_model
      [ ("email", VStr "test@example.com"); ("external_id", VStr "123");
        ("braze_id", VStr "456");
        ("custom_attributes",
         VDict [("user_attributes_v1",
                 VList [VDict [ ("basket_token", VStr "abc");
                                ("fxa_created_at", VStr "2022-01-02");
                                ("has_fxa", VBool false) ]])]) ]
      (VList []) = Ok local /\
    dict_find "token" local = Some (VStr "abc") /\
    dict_find "fxa_create_date" local = Some VNone.
Proof.
  eexists. split; [reflexivity|].
  match goal with
  | |- dict_find _ ?local = _ /\ _ =>
      destruct (from_vendor_versioned_attributes vendor_id_to_slug_model
                  [ ("email", VStr "test@example.com"); ("external_id", VStr "123");
                    ("braze_id", VStr "456");
                    ("custom_attributes",
                     VDict [("user_attributes_v1",
                             VList [VDict [ ("basket_token", VStr "abc");
                                            ("fxa_created_at", VStr "2022-01-02");
                                            ("has_fxa", VBool false) ]])]) ]
                  (VList []) local
                  [ ("basket_token", VStr "abc"); ("fxa_created_at", VStr "2022-01-02");
                    ("has_fxa", VBool false) ] eq_refl eq_refl)
        as (Htoken & _ & _ & _ & _ & _ & Hdate)
  end.
  split; [exact Htoken | exact Hdate].
Defined.

(** Witness of X18: a user with an external id and nothing else. *)
Lemma from_vendor_missing_key_witness :
  from_vendor vendor_id_to_slug_model [("external_id", VStr "123")] (VList [])
  = Raise (KeyError "email").
Proof.
  exact (proj1 (from_vendor_missing_key vendor_id_to_slug_model
                  [("external_id", VStr "123")] (VList []) (VDict []) [] []
                  eq_refl eq_refl eq_refl) eq_refl).
Defined.

(** Witness of X19: a user with the three keys and the groups of the
    test suite. *)
Lemma from_vendor_bare_record_witness :
  exists local,
    from_vendor vendor_id_to_slug_model
      [ ("email", VStr "test@example.com"); ("external_id", VStr "123");
        ("braze_id", VStr "456") ]
      (VList (map VDict mock_braze_user_subscription_groups)) = Ok local /\
    dict_find "lang" local = Some (VStr "en") /\
    dict_find "country" local = Some VNone /\
    dict_find "token" local = Some VNone.
Proof.
  destruct (from_vendor_bare_record vendor_id_to_slug_model
              [ ("email", VStr "test@example.com"); ("external_id", VStr "123");
                ("braze_id", VStr "456") ]
              mock_braze_user_subscription_groups eq_refl eq_refl eq_refl eq_refl)
    as (local & Hfrom & Hlang & Hcountry & Htoken & _).
  - repeat constructor.
  - exists local. split; [exact Hfrom|]. split; [exact Hlang|].
    split; [exact Hcountry | exact Htoken].
Defined.

(** Witness of X20: a record whose [user_attributes_v1] is an empty
    list, and one whose [custom_attributes] is [None]. *)
Lemma from_vendor_malformed_attributes_witness :
  from_vendor vendor_id_to_slug_model
    [ ("email", VStr "test@example.com"); ("external_id", VStr "123");
      ("braze_id", VStr "456");
      ("custom_attributes", VDict [("user_attributes_v1", VList [])]) ] (VList [])
  = Raise IndexError /\
  from_vendor vendor_id_to_slug_model
    [ ("email", VStr "test@example.com"); ("external_id", VStr "123");
      ("braze_id", VStr "456"); ("custom_attributes", VNone) ] (VList [])
  = Raise AttributeError.
Proof.
  split.
  - exact (proj1 (from_vendor_malformed_attributes vendor_id_to_slug_model
                    [ ("email", VStr "test@example.com"); ("external_id", VStr "123");
                      ("braze_id", VStr "456");
                      ("custom_attributes", VDict [("user_attributes_v1", VList [])]) ]
                    (VList []))
             [("user_attributes_v1", VList [])] eq_refl eq_refl).
  - exact (proj2 (from_vendor_malformed_attributes vendor_id_to_slug_model
                    [ ("email", VStr "test@example.com"); ("external_id", VStr "123");
                      ("braze_id", VStr "456"); ("custom_attributes", VNone) ]
                    (VList []))
             eq_refl).
Defined.

(** Witness of X21: the vendor fails on the delete call. *)
Lemma delete_vendor_error_witness :
  fst (delete urljoin_model
         (server_scripted
            (Response 200 "" (Some (VDict [("users", VList [VDict mock_braze_user_data])])))
            (Response 200 "" (Some (VDict [])))
            (Response 500 "boom" None))
         vendor_id_to_slug_model {| interface := braze_client |}
         (VStr "test@example.com") [])
  = Raise (BrazeInternalServerError "boom").
Proof.
  rewrite (delete_vendor_error urljoin_model
             (server_scripted
                (Response 200 "" (Some (VDict [("users", VList [VDict mock_braze_user_data])])))
                (Response 200 "" (Some (VDict [])))
                (Response 500 "boom" None))
             vendor_id_to_slug_model {| interface := braze_client |}
             (VStr "test@example.com") [] _ _ 500 "boom" None
             eq_refl ltac:(discriminate) eq_refl ltac:(lia)).
  reflexivity.
Defined.

(** Witness of X22: an update with no custom attributes. *)
Lemma to_vendor_update_existing_only_witness :
  exists payload attributes,
    to_vendor process_country_model process_lang_model slug_to_vendor_id_model
      is_valid_uuid_model frozen_now (Some mock_basket_user_data)
      (Some [("country", VStr "CA")]) None VNone = Ok payload /\
    payload_attributes payload = Some attributes /\
    dict_find "_update_existing_only" attributes = Some (VBool true).
Proof.
  exact (to_vendor_update_existing_only process_country_model process_lang_model
           slug_to_vendor_id_model is_valid_uuid_model frozen_now
           (Some mock_basket_user_data) [("country", VStr "CA")] None VNone eq_refl).
Defined.

(** Witness of X23: the new user of the test suite. *)
Lemma add_with_email_id_witness :
  exists payload attributes,
    to_vendor process_country_model process_lang_model slug_to_vendor_id_model
      is_valid_uuid_model frozen_now None
      (Some [ ("email", VStr "test@example.com"); ("email_id", VStr "123");
              ("basket_token", VStr "abc");
              ("newsletters", VDict [("foo-news", VBool true)]);
              ("country", VStr "US") ])
      (Some [("_update_existing_only", VBool false)]) VNone = Ok payload /\
    payload_attributes payload = Some attributes /\
    dict_find "_update_existing_only" attributes = Some (VBool false) /\
    snd (add urljoin_model (server_always (Response 200 "{}" (Some (VDict []))))
           process_country_model process_lang_model slug_to_vendor_id_model
           is_valid_uuid_model {| interface := braze_client |} frozen_now
           [ ("email", VStr "test@example.com"); ("email_id", VStr "123");
             ("basket_token", VStr "abc");
             ("newsletters", VDict [("foo-news", VBool true)]);
             ("country", VStr "US") ] [])
    = ([] ++ [request_call urljoin_model braze_client USERS_TRACK payload "POST" VNone])%list.
Proof.
  exact (add_with_email_id urljoin_model (server_always (Response 200 "{}" (Some (VDict []))))
           process_country_model process_lang_model slug_to_vendor_id_model
           is_valid_uuid_model {| interface := braze_client |} frozen_now
           [ ("email", VStr "test@example.com"); ("email_id", VStr "123");
             ("basket_token", VStr "abc");
             ("newsletters", VDict [("foo-news", VBool true)]);
             ("country", VStr "US") ] [] eq_refl eq_refl).
Defined.
